(** * django_ai_assistant.ai.function_calling: the tool-call fulfilment handler

    A shallow embedding of [EventHandler] (function_calling.py) and the
    properties its specification states about one "requires action" batch.

    Python values are an inductive type, the registry [tools_by_name] is a
    [gmap], raised exceptions are a result type, and the two observable
    effects (a tool function being invoked, the resume call being issued)
    are recorded in a chronological log threaded through a small
    state-and-exception monad. *)

From Stdlib Require Import ZArith Ascii String List Permutation DecimalString.
From stdpp Require Import base option list gmap strings.

Set Warnings "-register-all".

Local Open Scope string_scope.
Local Open Scope Z_scope.
Local Open Scope list_scope.

(** ** Python values and exceptions *)

(** What [json.loads] can return: None, bools, ints, floats, strs, lists
    and dicts.  A float is kept as the literal it was read from, a str as
    its UTF-8 bytes, a dict as its items in insertion order, keys unique. *)
Inductive pyval : Type :=
| PNone
| PBool (b : bool)
| PInt (z : Z)
| PFloat (literal : string)
| PStr (s : string)
| PList (items : list pyval)
| PDict (items : list (string * pyval)).

(** The empty dict [{}] of line 38. *)
Definition empty_dict : pyval := PDict [].

Definition is_dict (v : pyval) : bool :=
  match v with PDict _ => true | _ => false end.

(** Exceptions that leave the handler.  [Exception] is the class raised at
    lines 32 and 42; [KeyError] is what [tools_by_name[...]] raises on a
    missing key (line 33); [AttributeError] is an attribute read on [None]
    (line 55, before any run was recorded); [RemoteError] is anything the
    remote client raises while the resumed stream is consumed;
    [ValueError] and [RecursionError] are what [json.loads] raises, besides
    [json.JSONDecodeError], on an integer literal over the digit limit and
    on nesting beyond the recursion limit (line 40). *)
Inductive PyExc : Type :=
| Exception (msg : string)
| KeyError (key : string)
| AttributeError (msg : string)
| RemoteError (cls msg : string)
| ValueError (msg : string)
| RecursionError (msg : string).

(** How a call of [json.loads] on a [str] ends: with the decoded value,
    with [json.JSONDecodeError], or with an exception of another class. *)
Inductive loads_result : Type :=
| Loaded (value : pyval)
| JSONDecodeError
| LoadsRaised (e : PyExc).

Definition is_loaded (r : loads_result) : bool :=
  match r with Loaded _ => true | _ => false end.

Inductive result (A : Type) : Type :=
| Return (a : A)
| Raise (e : PyExc).
Arguments Return {A} a.
Arguments Raise {A} e.

Definition raised {A} (r : result A) : bool :=
  match r with Raise _ => true | Return _ => false end.

(** ** The OpenAI records the handler reads *)

(** [tool_call.function]: [.name] and [.arguments]. *)
Record Function : Type := mkFunction {
  fn_name : string;
  fn_arguments : string
}.

(** One entry of [required_action.submit_tool_outputs.tool_calls]:
    [.id], [.type] and [.function]. *)
Record ToolCall : Type := mkToolCall {
  tc_id : string;
  tc_type : string;
  tc_function : Function
}.

Record SubmitToolOutputs : Type := mkSubmitToolOutputs {
  tool_calls : list ToolCall
}.

Record RequiredAction : Type := mkRequiredAction {
  submit_tool_outputs_ : SubmitToolOutputs
}.

(** [Run]: [.id], [.thread_id] and [.required_action], which a
    "thread.run.requires_action" event always carries. *)
Record Run : Type := mkRun {
  run_id_ : string;
  run_thread_id : string;
  required_action : RequiredAction
}.

(** [ThreadRunRequiresAction] and its sibling stream events: [.event] is the
    event kind, [.data] the run. *)
Record StreamEvent : Type := mkStreamEvent {
  event : string;
  data : Run
}.

(** The dict appended at line 47:
    [{"tool_call_id": tool_call.id, "output": str(output)}]. *)
Record ToolOutputParam : Type := mkToolOutputParam {
  tool_call_id : string;
  output : string
}.

(** The keyword arguments of the resume call of lines 54-59. *)
Record SubmitCall : Type := mkSubmitCall {
  thread_id : string;
  run_id : string;
  tool_outputs : list ToolOutputParam
}.

(** ** Observable effects *)

Inductive Effect : Type :=
| Invoked (tool : string) (kwargs : pyval)
| Submitted (call : SubmitCall).

Definition is_submit (e : Effect) : bool :=
  match e with Submitted _ => true | Invoked _ _ => false end.

(** Number of resume calls in a log. *)
Definition resume_calls (log : list Effect) : nat :=
  length (filter (fun e => is_submit e = true) log).

(** ** State-and-exception monad over the effect log *)

Definition M (A : Type) : Type := list Effect -> result A * list Effect.

Definition ret {A} (a : A) : M A := fun log => (Return a, log).

Definition raise {A} (e : PyExc) : M A := fun log => (Raise e, log).

Definition bind {A B} (m : M A) (k : A -> M B) : M B :=
  fun log =>
    match m log with
    | (Return a, log') => k a log'
    | (Raise e, log') => (Raise e, log')
    end.

Definition emit (e : Effect) : M unit := fun log => (Return tt, log ++ [e]).

Declare Scope py_scope.
Delimit Scope py_scope with py.
Notation "x <- c ;; k" := (bind c (fun x => k))
  (at level 100, c at next level, right associativity) : py_scope.
Notation "c ;;; k" := (bind c (fun _ => k))
  (at level 100, right associativity) : py_scope.

Local Open Scope py_scope.

(** ** Tools (function_tool.py) *)

(** What calling a tool's Python function does: it returns a value or
    raises an exception of class [cls] whose [str(e)] is [msg]. *)
Inductive tool_result (Any : Type) : Type :=
| Returns (v : Any)
| Raises (cls msg : string).
Arguments Returns {Any} v.
Arguments Raises {Any} cls msg.

(** Modelled from the spec: one declared parameter of a tool's argument
    schema (function_tool.py is not among the sources); §3 "argument schema
    (ordered set of named, typed, optionally-defaulted parameters)".  A
    parameter without a default is required. *)
Record SchemaField : Type := mkSchemaField {
  field_name : string;
  field_required : bool
}.

(** Modelled from the spec: [tool.metadata] (class ToolMetadata of
    function_tool.py); the source reads [.name] (line 16), the schema is
    §3's. *)
Record ToolMetadata : Type := mkToolMetadata {
  name : string;
  parameters : list SchemaField
}.

(** Modelled from the spec: class FunctionTool of function_tool.py, §3
    ToolDescriptor: "name ..., argument schema ... and an invocation
    function (kwargs) -> Any". *)
Record FunctionTool (Any : Type) : Type := mkFunctionTool {
  metadata : ToolMetadata;
  fn : pyval -> tool_result Any
}.
Arguments mkFunctionTool {Any} metadata fn.
Arguments metadata {Any} f.
Arguments fn {Any} f.

(** Declared field names of a tool's schema. *)
Definition declared_fields {Any} (tool : FunctionTool Any) : list string :=
  map field_name (parameters (metadata tool)).

(** Modelled from the spec: the failure kinds a ToolOutcome can carry
    (§4.3, §7); the invoker produces only [ToolExecutionError]. *)
Inductive FailureKind : Type :=
| ToolExecutionError.

(** Modelled from the spec: the value [call_tool] returns (class ToolOutput
    of function_tool.py), §3 ToolOutcome: "either a success value ... or a
    failure descriptor (kind + message)"; §4.3: the success value is kept in
    its display-string form. *)
Inductive ToolOutcome : Type :=
| Success (display : string)
| Failure (kind : FailureKind) (message : string).

(** Modelled from the spec: [str(output)] of line 47 on a ToolOutcome; §7
    "reported as that call's output text": the display string of a success,
    the failure text of a failure. *)
Definition outcome_str (o : ToolOutcome) : string :=
  match o with
  | Success display => display
  | Failure _ message => message
  end.

(** ** The handler *)

(** The SDK's record of the run being streamed: what [self.current_run]
    holds once a run event has been seen ([.thread_id], [.id]). *)
Record CurrentRun : Type := mkCurrentRun {
  cur_thread_id : string;
  cur_id : string
}.

(** [EventHandler]: [client], [tools_by_name], and the base class's
    [current_run], which is [None] until the SDK records a run. *)
Record EventHandler (Client Any : Type) : Type := mkEventHandler {
  client : Client;
  tools_by_name : gmap string (FunctionTool Any);
  current_run : option CurrentRun
}.
Arguments mkEventHandler {Client Any} client tools_by_name current_run.
Arguments client {Client Any} e.
Arguments tools_by_name {Client Any} e.
Arguments current_run {Client Any} e.

Section Handler.

(** The client object is only passed along. *)
Context {Client : Type}.

(** Values tools return, and Python's built-in [str] on them. *)
Context {Any : Type}.
Variable str : Any -> string.

(** [json.loads] on a [str]. *)
Variable json_loads : string -> loads_result.

(** [client.beta.threads.runs.submit_tool_outputs_stream(...)] followed by
    the loop over [stream.text_deltas] (lines 54-62): the remote side
    either lets the stream run out or raises.  The events of the resumed
    stream go to the fresh [EventHandler] of line 58, built over the same
    client and tools; what that handler does for later batches is its own
    log and not part of this one. *)
Variable remote : SubmitCall -> result unit.

Local Abbreviation Tool := (FunctionTool Any).
Local Abbreviation Handler := (EventHandler Client Any).

(** The dict comprehension of line 16,
    [{tool.metadata.name: tool for tool in tools}]: the tools are stored
    left to right, a later tool overwriting an earlier one of the same
    name. *)
Definition dict_by_name (tools : list Tool) : gmap string Tool :=
  foldl (fun d tool => <[name (metadata tool) := tool]> d) ∅ tools.

(** [EventHandler.__init__] (lines 14-17). *)
Definition __init__ (client : Client) (tools : list Tool) : result Handler :=
  Return (mkEventHandler client (dict_by_name tools) None).

(** [self.tools_by_name[key]] (line 33). *)
Definition getitem (d : gmap string Tool) (key : string) : M Tool :=
  match d !! key with
  | Some tool => ret tool
  | None => raise (KeyError key)
  end.

(** Lines 34-44: the [try] block that decodes [function.arguments].  The
    [except] clause names [json.JSONDecodeError] only; any other exception
    of [json.loads] leaves the block as it is. *)
Definition decode_arguments (arguments : string) : M pyval :=
  if String.eqb arguments "" then ret empty_dict
  else match json_loads arguments with
       | Loaded tool_kwargs => ret tool_kwargs
       | JSONDecodeError =>
           raise (Exception ("Failed to parse tool arguments: " +:+ arguments))
       | LoadsRaised e => raise e
       end.

(** Modelled from the spec: the invocation inside [call_tool] of
    function_tool.py, which is not among the sources; §4.3 ToolInvoker:
    "Calls the descriptor's function with the decoded keyword arguments.
    Any exception raised by the underlying tool function is caught and
    converted to a failure ToolOutcome with kind ToolExecutionError and the
    exception's message ...  The returned value (on success) is converted
    to its display-string form at this boundary". *)
Definition invoke (tool : Tool) (tool_kwargs : pyval) : ToolOutcome :=
  match fn tool tool_kwargs with
  | Returns v => Success (str v)
  | Raises _ msg => Failure ToolExecutionError msg
  end.

(** Modelled from the spec: [call_tool] of function_tool.py (§4.3
    [invoke(descriptor, kwargs) -> ToolOutcome]); the call of the tool's
    function is logged with the keyword arguments it receives. *)
Definition call_tool (tool : Tool) (tool_kwargs : pyval) : M ToolOutcome :=
  emit (Invoked (name (metadata tool)) tool_kwargs) ;;;
  ret (invoke tool tool_kwargs).

(** The body of the [for] loop, lines 31-47, up to the [append]: it yields
    the entry to append. *)
Definition process_tool_call (self : Handler) (tool_call : ToolCall)
  : M ToolOutputParam :=
  (if negb (String.eqb (tc_type tool_call) "function")
   then raise (Exception ("Unexpected tool_call.type=" +:+ tc_type tool_call))
   else ret tt) ;;;
  tool <- getitem (tools_by_name self) (fn_name (tc_function tool_call)) ;;
  tool_kwargs <- decode_arguments (fn_arguments (tc_function tool_call)) ;;
  output <- call_tool tool tool_kwargs ;;
  ret (mkToolOutputParam (tc_id tool_call) (outcome_str output)).

(** The [for] loop of lines 30-47 over the remaining calls, with
    [output_str_list] as built so far. *)
Fixpoint for_tool_calls (self : Handler) (calls : list ToolCall)
    (output_str_list : list ToolOutputParam) : M (list ToolOutputParam) :=
  match calls with
  | [] => ret output_str_list
  | tool_call :: rest =>
      entry <- process_tool_call self tool_call ;;
      for_tool_calls self rest (output_str_list ++ [entry])
  end.

(** [submit_tool_outputs] (lines 52-62).  The [run_id] argument is not
    read: both ids come from [self.current_run]. *)
Definition submit_tool_outputs (self : Handler)
    (tool_outputs : list ToolOutputParam) (run_id : string) : M unit :=
  match current_run self with
  | None => raise (AttributeError "'NoneType' object has no attribute 'thread_id'")
  | Some cur =>
      let call := mkSubmitCall (cur_thread_id cur) (cur_id cur) tool_outputs in
      emit (Submitted call) ;;;
      fun log => (remote call, log)
  end.

(** [data.required_action.submit_tool_outputs.tool_calls] (line 30). *)
Definition pending_tool_calls (data : Run) : list ToolCall :=
  tool_calls (submit_tool_outputs_ (required_action data)).

(** [handle_requires_action] (lines 27-50). *)
Definition handle_requires_action (self : Handler) (data : Run)
    (run_id : string) : M unit :=
  output_str_list <- for_tool_calls self (pending_tool_calls data) [] ;;
  submit_tool_outputs self output_str_list run_id.

(** [on_event] (lines 20-25). *)
Definition on_event (self : Handler) (ev : StreamEvent) : M unit :=
  if String.eqb (event ev) "thread.run.requires_action"
  then handle_requires_action self (data ev) (run_id_ (data ev))
  else ret tt.

(** A call that the loop body gets through: kind "function" (line 31), a
    registered name (line 33), and arguments that are empty or decode
    (lines 37-40). *)
Definition processable (self : Handler) (tool_call : ToolCall) : bool :=
  String.eqb (tc_type tool_call) "function"
  && bool_decide (is_Some (tools_by_name self !! fn_name (tc_function tool_call)))
  && (String.eqb (fn_arguments (tc_function tool_call)) ""
      || is_loaded (json_loads (fn_arguments (tc_function tool_call)))).

End Handler.

(** ** A decoder for JSON text

    [Json.loads] follows CPython's [json.loads] and its C scanner
    ([json/decoder.py], [Modules/_json.c]) on a [str] given as its UTF-8
    bytes.  Strings come out as UTF-8 bytes too, a lone surrogate escape as
    its three-byte form; a float, and each of the constants NaN, Infinity
    and -Infinity, is kept as its literal.  An integer literal of more than
    4300 digits raises [ValueError] and a container opened when no nesting
    is left raises [RecursionError]; neither is a [json.JSONDecodeError].
    How much nesting is left when [json.loads] is called depends on the
    interpreter's recursion limit and on the depth of the call stack:
    [decode] takes it as an argument.  The theorems hold for any decoder;
    this one is what the concrete examples run with. *)
Module Json.

(** What scanning a value from the head of a text gives: the value and the
    rest of the text, a [json.JSONDecodeError], or another exception. *)
Inductive scanned (A : Type) : Type :=
| Scanned (a : A) (rest : string)
| Malformed
| Aborted (e : PyExc).
Arguments Scanned {A} a rest.
Arguments Malformed {A}.
Arguments Aborted {A} e.

Definition is_ws (c : ascii) : bool :=
  match c with
  | " " | "009" | "010" | "013" => true
  | _ => false
  end%char.

Fixpoint skip_ws (s : string) : string :=
  match s with
  | String c rest => if is_ws c then skip_ws rest else s
  | EmptyString => s
  end.

Definition is_digit (c : ascii) : bool :=
  ((48 <=? N_of_ascii c) && (N_of_ascii c <=? 57))%N.

(** The longest run of digits at the head of a text, and what follows. *)
Fixpoint span_digits (s : string) : string * string :=
  match s with
  | String c rest =>
      if is_digit c
      then let '(digits, r) := span_digits rest in (String c digits, r)
      else (EmptyString, s)
  | EmptyString => (EmptyString, s)
  end.

Fixpoint int_of_digits (acc : Z) (digits : string) : Z :=
  match digits with
  | String c rest => int_of_digits (10 * acc + (Z.of_N (N_of_ascii c) - 48)) rest
  | EmptyString => acc
  end.

(** [sys.get_int_max_str_digits()], by default. *)
Definition max_str_digits : nat := 4300.

(** What [int] raises on a literal of [n] digits, [n] over the limit. *)
Definition digits_error (n : nat) : PyExc :=
  ValueError
    ("Exceeds the limit (4300 digits) for integer string conversion: value has "
     +:+ NilZero.string_of_uint (Nat.to_uint n)
     +:+ " digits; use sys.set_int_max_str_digits() to increase the limit").

(** The optional fraction of NUMBER_RE: a dot and at least one digit. *)
Definition scan_frac (s : string) : string * string :=
  match s with
  | String c r =>
      if (c =? ".")%char
      then match span_digits r with
           | (EmptyString, _) => (EmptyString, s)
           | (digits, r') => (String c digits, r')
           end
      else (EmptyString, s)
  | EmptyString => (EmptyString, s)
  end.

(** The optional exponent of NUMBER_RE: e or E, an optional sign, and at
    least one digit. *)
Definition scan_exp (s : string) : string * string :=
  match s with
  | String e r =>
      if ((e =? "e") || (e =? "E"))%char
      then
        let '(sign, r1) :=
          match r with
          | String c r' =>
              if ((c =? "+") || (c =? "-"))%char
              then (String c EmptyString, r')
              else (EmptyString, r)
          | EmptyString => (EmptyString, r)
          end in
        match span_digits r1 with
        | (EmptyString, _) => (EmptyString, s)
        | (digits, r2) => (String e (sign +:+ digits), r2)
        end
      else (EmptyString, s)
  | EmptyString => (EmptyString, s)
  end.

(** The integer part of NUMBER_RE: 0, or a non-zero digit followed by
    digits. *)
Definition scan_int_part (s : string) : option (string * string) :=
  match s with
  | String c r =>
      if (c =? "0")%char then Some (String c EmptyString, r)
      else if is_digit c
           then let '(digits, r') := span_digits r in Some (String c digits, r')
           else None
  | EmptyString => None
  end.

(** [_match_number_unicode]: an int when the literal has neither fraction
    nor exponent, a float otherwise. *)
Definition scan_number (s : string) : scanned pyval :=
  let '(negative, s1) :=
    match s with
    | String c r => if (c =? "-")%char then (true, r) else (false, s)
    | EmptyString => (false, s)
    end in
  match scan_int_part s1 with
  | None => Malformed
  | Some (int, r) =>
      let '(frac, r1) := scan_frac r in
      let '(exp, r2) := scan_exp r1 in
      match frac, exp with
      | EmptyString, EmptyString =>
          if (max_str_digits <? String.length int)%nat
          then Aborted (digits_error (String.length int))
          else Scanned (PInt (if negative then - int_of_digits 0 int
                              else int_of_digits 0 int)) r2
      | _, _ =>
          Scanned (PFloat ((if negative then "-" else "") +:+ int +:+ frac +:+ exp)) r2
      end
  end.

(** BACKSLASH of decoder.py. *)
Definition unescape (c : ascii) : option ascii :=
  match c with
  | "034" => Some "034"
  | "\" => Some "\"
  | "/" => Some "/"
  | "b" => Some "008"
  | "f" => Some "012"
  | "n" => Some "010"
  | "r" => Some "013"
  | "t" => Some "009"
  | _ => None
  end%char.

Definition hex_value (c : ascii) : option N :=
  let n := N_of_ascii c in
  (if (48 <=? n) && (n <=? 57) then Some (n - 48)
   else if (65 <=? n) && (n <=? 70) then Some (n - 55)
   else if (97 <=? n) && (n <=? 102) then Some (n - 87)
   else None)%N.

(** The code unit four hexadecimal digits denote. *)
Definition hex4 (a b c d : ascii) : option N :=
  match hex_value a, hex_value b, hex_value c, hex_value d with
  | Some x, Some y, Some z, Some w => Some (((x * 16 + y) * 16 + z) * 16 + w)%N
  | _, _, _, _ => None
  end.

Definition is_high_surrogate (u : N) : bool := ((55296 <=? u) && (u <=? 56319))%N.

Definition is_low_surrogate (u : N) : bool := ((56320 <=? u) && (u <=? 57343))%N.

Definition join_surrogates (high low : N) : N :=
  (65536 + (high - 55296) * 1024 + (low - 56320))%N.

(** The UTF-8 bytes of a code point. *)
Definition utf8 (cp : N) : string :=
  (if cp <? 128 then String (ascii_of_N cp) EmptyString
   else if cp <? 2048 then
     String (ascii_of_N (192 + cp / 64))
       (String (ascii_of_N (128 + cp mod 64)) EmptyString)
   else if cp <? 65536 then
     String (ascii_of_N (224 + cp / 4096))
       (String (ascii_of_N (128 + (cp / 64) mod 64))
          (String (ascii_of_N (128 + cp mod 64)) EmptyString))
   else
     String (ascii_of_N (240 + cp / 262144))
       (String (ascii_of_N (128 + (cp / 4096) mod 64))
          (String (ascii_of_N (128 + (cp / 64) mod 64))
             (String (ascii_of_N (128 + cp mod 64)) EmptyString))))%N.

Definition prepend (head : string) (scan : option (string * string))
  : option (string * string) :=
  match scan with
  | Some (body, r) => Some (head +:+ body, r)
  | None => None
  end.

(** [scanstring] in strict mode, from just after the opening quote: the
    body and what follows the closing quote, or [None] for a
    [json.JSONDecodeError]. *)
Fixpoint scan_string (s : string) : option (string * string) :=
  match s with
  | EmptyString => None
  | String c rest =>
      if (c =? "034")%char then Some (EmptyString, rest)
      else if (c =? "\")%char then
        match rest with
        | EmptyString => None
        | String e rest1 =>
            if (e =? "u")%char then
              match rest1 with
              | String a (String b (String c' (String d rest2))) =>
                  match hex4 a b c' d with
                  | None => None
                  | Some u =>
                      let alone := prepend (utf8 u) (scan_string rest2) in
                      if is_high_surrogate u then
                        match rest2 with
                        | String p (String q (String a' (String b'
                            (String c'' (String d' rest3))))) =>
                            if ((p =? "\") && (q =? "u"))%char then
                              match hex4 a' b' c'' d' with
                              | Some low =>
                                  if is_low_surrogate low
                                  then prepend (utf8 (join_surrogates u low))
                                         (scan_string rest3)
                                  else alone
                              | None => alone
                              end
                            else alone
                        | _ => alone
                        end
                      else alone
                  end
              | _ => None
              end
            else
              match unescape e with
              | Some ch => prepend (String ch EmptyString) (scan_string rest1)
              | None => None
              end
        end
      else if (N_of_ascii c <? 32)%N then None
      else prepend (String c EmptyString) (scan_string rest)
  end.

(** [dict(pairs)]: a repeated key keeps its first position and takes the
    last value. *)
Fixpoint dict_set (key : string) (v : pyval) (items : list (string * pyval))
  : list (string * pyval) :=
  match items with
  | [] => [(key, v)]
  | (k, w) :: rest =>
      if String.eqb k key then (k, v) :: rest
      else (k, w) :: dict_set key v rest
  end.

(** The text after a given prefix, when the text starts with it. *)
Fixpoint strip_prefix (prefix s : string) : option string :=
  match prefix, s with
  | EmptyString, _ => Some s
  | String p prefix', String c rest =>
      if (p =? c)%char then strip_prefix prefix' rest else None
  | String _ _, EmptyString => None
  end.

(** The literals [scan_once] knows besides numbers. *)
Definition constants : list (string * pyval) :=
  [("null", PNone); ("true", PBool true); ("false", PBool false);
   ("NaN", PFloat "NaN"); ("Infinity", PFloat "Infinity");
   ("-Infinity", PFloat "-Infinity")].

Fixpoint scan_constant (table : list (string * pyval)) (s : string)
  : option (pyval * string) :=
  match table with
  | [] => None
  | (literal, v) :: table' =>
      match strip_prefix literal s with
      | Some r => Some (v, r)
      | None => scan_constant table' s
      end
  end.

(** What [Py_EnterRecursiveCall] raises when no nesting is left. *)
Definition depth_error (container : string) : PyExc :=
  RecursionError
    ("maximum recursion depth exceeded while decoding a JSON " +:+ container
     +:+ " from a unicode string").

(** [scan_once_unicode], [_parse_array_unicode] and
    [_parse_object_unicode]; [nesting] is the number of containers that may
    still be opened inside one another. *)
Fixpoint scan_once (fuel nesting : nat) (s : string) : scanned pyval :=
  match fuel with
  | O => Malformed
  | S fuel =>
      match s with
      | EmptyString => Malformed
      | String c rest =>
          if (c =? "034")%char then
            match scan_string rest with
            | Some (body, r) => Scanned (PStr body) r
            | None => Malformed
            end
          else if (c =? "{")%char then
            match nesting with
            | O => Aborted (depth_error "object")
            | S nesting =>
                match skip_ws rest with
                | String c1 r =>
                    if (c1 =? "}")%char then Scanned (PDict []) r
                    else if (c1 =? "034")%char then scan_members fuel nesting r []
                    else Malformed
                | EmptyString => Malformed
                end
            end
          else if (c =? "[")%char then
            match nesting with
            | O => Aborted (depth_error "array")
            | S nesting =>
                match skip_ws rest with
                | String c1 r =>
                    if (c1 =? "]")%char then Scanned (PList []) r
                    else scan_items fuel nesting (String c1 r) []
                | EmptyString => Malformed
                end
            end
          else
            match scan_constant constants s with
            | Some (v, r) => Scanned v r
            | None => scan_number s
            end
      end
  end
with scan_items (fuel nesting : nat) (s : string) (acc : list pyval)
  : scanned pyval :=
  match fuel with
  | O => Malformed
  | S fuel =>
      match scan_once fuel nesting s with
      | Scanned v r =>
          match skip_ws r with
          | String c r' =>
              if (c =? "]")%char then Scanned (PList (acc ++ [v])) r'
              else if (c =? ",")%char
                   then scan_items fuel nesting (skip_ws r') (acc ++ [v])
                   else Malformed
          | EmptyString => Malformed
          end
      | Malformed => Malformed
      | Aborted e => Aborted e
      end
  end
with scan_members (fuel nesting : nat) (s : string)
    (acc : list (string * pyval)) : scanned pyval :=
  match fuel with
  | O => Malformed
  | S fuel =>
      match scan_string s with
      | Some (key, r) =>
          match skip_ws r with
          | String c r1 =>
              if (c =? ":")%char then
                match scan_once fuel nesting (skip_ws r1) with
                | Scanned v r2 =>
                    match skip_ws r2 with
                    | String c2 r3 =>
                        if (c2 =? "}")%char
                        then Scanned (PDict (dict_set key v acc)) r3
                        else if (c2 =? ",")%char then
                          match skip_ws r3 with
                          | String c3 r4 =>
                              if (c3 =? "034")%char
                              then scan_members fuel nesting r4 (dict_set key v acc)
                              else Malformed
                          | EmptyString => Malformed
                          end
                        else Malformed
                    | EmptyString => Malformed
                    end
                | Malformed => Malformed
                | Aborted e => Aborted e
                end
              else Malformed
          | EmptyString => Malformed
          end
      | None => Malformed
      end
  end.

(** [JSONDecoder.decode] in an interpreter that allows [nesting] more
    nested containers: one value between optional whitespace, nothing after
    it. *)
Definition decode (nesting : nat) (s : string) : loads_result :=
  match scan_once (2 * String.length s + 2) nesting (skip_ws s) with
  | Scanned v r =>
      match skip_ws r with
      | EmptyString => Loaded v
      | _ => JSONDecodeError
      end
  | Malformed => JSONDecodeError
  | Aborted e => LoadsRaised e
  end.

(** The nesting the concrete session's interpreter has left when the
    handler calls [json.loads]. *)
Definition nesting_left : nat := 900.

Definition loads (s : string) : loads_result := decode nesting_left s.

End Json.

(** ** A concrete session

    The tools of tests/test_assistants.py and the values the examples run
    on. *)
Module Scenario.

(** The double quote, for writing JSON text. *)
Definition dq : string := String "034" EmptyString.

(** Tools return strings here; [str] of a [str] is the string itself. *)
Definition str (s : string) : string := s.

(** A remote side that accepts every submission and ends the stream. *)
Definition remote (_ : SubmitCall) : result unit := Return tt.

(** [fetch_current_temperature(self, location: str)]: one keyword argument;
    any other call shape is a [TypeError]. *)
Definition fetch_current_temperature : FunctionTool string :=
  mkFunctionTool
    (mkToolMetadata "fetch_current_temperature" [mkSchemaField "location" true])
    (fun kwargs =>
       match kwargs with
       | PDict [(k, _)] =>
           if String.eqb k "location" then Returns "32 degrees Celsius"
           else Raises "TypeError" "unexpected keyword argument"
       | _ => Raises "TypeError" "bad keyword arguments"
       end).

(** [fetch_forecast_temperature(self, location: str, dt_str: str)]. *)
Definition fetch_forecast_temperature : FunctionTool string :=
  mkFunctionTool
    (mkToolMetadata "fetch_forecast_temperature"
       [mkSchemaField "location" true; mkSchemaField "dt_str" true])
    (fun kwargs =>
       match kwargs with
       | PDict [(k1, _); (k2, _)] =>
           if String.eqb k1 "location" && String.eqb k2 "dt_str"
              || String.eqb k1 "dt_str" && String.eqb k2 "location"
           then Returns "35 degrees Celsius"
           else Raises "TypeError" "unexpected keyword argument"
       | _ => Raises "TypeError" "bad keyword arguments"
       end).

(** A tool whose function always raises. *)
Definition explode : FunctionTool string :=
  mkFunctionTool (mkToolMetadata "explode" [])
    (fun _ => Raises "RuntimeError" "boom").

(** A second tool registered under the name of the first. *)
Definition fetch_current_temperature_v2 : FunctionTool string :=
  mkFunctionTool (mkToolMetadata "fetch_current_temperature" [])
    (fun _ => Returns "0 degrees Celsius").

Definition tools : list (FunctionTool string) :=
  [fetch_current_temperature; fetch_forecast_temperature; explode].

(** The handler while run "run_1" of thread "thread_1" is streamed. *)
Definition handler : EventHandler unit string :=
  mkEventHandler tt (dict_by_name tools)
    (Some (mkCurrentRun "thread_1" "run_1")).

Definition function_call (id name arguments : string) : ToolCall :=
  mkToolCall id "function" (mkFunction name arguments).

Definition run_with (calls : list ToolCall) : Run :=
  mkRun "run_1" "thread_1" (mkRequiredAction (mkSubmitToolOutputs calls)).

(** [{"location": "Recife"}] *)
Definition recife : string :=
  "{" +:+ dq +:+ "location" +:+ dq +:+ ": " +:+ dq +:+ "Recife" +:+ dq +:+ "}".

(** [{"location": "Recife", "units": "K"}] *)
Definition recife_extra : string :=
  "{" +:+ dq +:+ "location" +:+ dq +:+ ": " +:+ dq +:+ "Recife" +:+ dq
  +:+ ", " +:+ dq +:+ "units" +:+ dq +:+ ": " +:+ dq +:+ "K" +:+ dq +:+ "}".

(** A pending call of some other kind; it carries no function. *)
Definition other_call (id kind : string) : ToolCall :=
  mkToolCall id kind (mkFunction "" "").

Definition call_temperature : ToolCall :=
  function_call "call_1" "fetch_current_temperature" recife.

Definition call_explode : ToolCall := function_call "call_2" "explode" "".

Definition call_unknown : ToolCall :=
  function_call "call_3" "nonexistent_tool" "".

Definition call_retrieval : ToolCall := other_call "call_4" "retrieval".

Definition call_malformed : ToolCall :=
  function_call "call_5" "fetch_current_temperature" "{location: Recife".

Definition call_no_arguments : ToolCall :=
  function_call "call_6" "fetch_current_temperature" "".

Definition call_list_payload : ToolCall :=
  function_call "call_7" "fetch_current_temperature" "[1,2]".

Definition call_extra_field : ToolCall :=
  function_call "call_8" "fetch_current_temperature" recife_extra.

(** A "requires action" event whose run is not the one the handler has
    recorded. *)
Definition event_of_other_run : StreamEvent :=
  mkStreamEvent "thread.run.requires_action"
    (mkRun "run_2" "thread_2"
       (mkRequiredAction (mkSubmitToolOutputs [call_temperature]))).

(** A payload that is one integer literal of 4301 digits. *)
Definition long_integer : string :=
  string_of_list_ascii (repeat "1"%char 4301).

Definition call_long_integer : ToolCall :=
  function_call "call_9" "fetch_current_temperature" long_integer.

(** A remote side that fails on every submission. *)
Definition remote_down (_ : SubmitCall) : result unit :=
  Raise (RemoteError "APIConnectionError" "Connection error.").

End Scenario.

(** ** Reading the log and the registry *)

(** The names of the tools invoked, in the order of their invocation. *)
Definition invoked_tools (log : list Effect) : list string :=
  flat_map (fun e => match e with
                     | Invoked tool _ => [tool]
                     | Submitted _ => []
                     end) log.

(** A registry whose every key is the name of the tool stored under it. *)
Definition keyed_by_name {Any : Type} (d : gmap string (FunctionTool Any)) : Prop :=
  forall key tool, d !! key = Some tool -> name (metadata tool) = key.

(** [values] is what [d.values()] yields: the stored tools, one per key.
    Python yields them in insertion order, which a [gmap] does not record;
    any order is allowed here. *)
Definition is_values {Any : Type} (d : gmap string (FunctionTool Any))
    (values : list (FunctionTool Any)) : Prop :=
  values ≡ₚ (map_to_list d).*2.

(** Line 58: the handler chained into the resumed stream,
    [EventHandler(client=self.client, tools=self.tools_by_name.values())],
    with [values] standing for [self.tools_by_name.values()]. *)
Definition chained_handler {Client Any : Type} (self : EventHandler Client Any)
    (values : list (FunctionTool Any)) : result (EventHandler Client Any) :=
  __init__ (client self) values.

(** ** The retriever of tests/test_assistants.py *)
Module SequentialRetriever.

(** [SequentialRetriever] (lines 82-84): the scripted responses and the
    position of the next one; [response_index] is a Python int. *)
Record t (Document : Type) : Type := mk {
  sequential_responses : list (list Document);
  response_index : Z
}.
Arguments mk {Document} sequential_responses response_index.
Arguments sequential_responses {Document} t.
Arguments response_index {Document} t.

(** What a call yields: the documents returned, or the [IndexError] of a
    list subscript out of range. *)
Inductive outcome (Document : Type) : Type :=
| Documents (docs : list Document)
| IndexError.
Arguments Documents {Document} docs.
Arguments IndexError {Document}.

(** Python's [l[i]]: a negative index counts from the end; [None] stands
    for [IndexError]. *)
Definition subscript {A : Type} (l : list A) (i : Z) : option A :=
  if 0 <=? i then l !! Z.to_nat i
  else if - Z.of_nat (length l) <=? i then l !! Z.to_nat (Z.of_nat (length l) + i)
  else None.

(** [_get_relevant_documents] (lines 86-91): the outcome and the retriever
    as the call leaves it.  The index is advanced before the list is
    read. *)
Definition _get_relevant_documents {Document : Type} (self : t Document)
    (query : string) : outcome Document * t Document :=
  if Z.of_nat (length (sequential_responses self)) <=? response_index self
  then (Documents [], self)
  else
    let self' := mk (sequential_responses self) (response_index self + 1) in
    match subscript (sequential_responses self') (response_index self' - 1) with
    | Some docs => (Documents docs, self')
    | None => (IndexError, self')
    end.

(** [_aget_relevant_documents] (lines 93-94) awaits nothing and delegates. *)
Definition _aget_relevant_documents {Document : Type} (self : t Document)
    (query : string) : outcome Document * t Document :=
  _get_relevant_documents self query.

(** One call per query, in order, on the same retriever object: the
    outcomes and the retriever after the last call. *)
Fixpoint ask {Document : Type} (self : t Document) (queries : list string)
  : list (outcome Document) * t Document :=
  match queries with
  | [] => ([], self)
  | query :: rest =>
      let '(o, self1) := _get_relevant_documents self query in
      let '(os, self2) := ask self1 rest in
      (o :: os, self2)
  end.

(** The retriever of [TourGuideAssistant.get_retriever] (lines 116-125),
    documents given by their [page_content]. *)
Definition tour_guide : t string :=
  mk [["Central Park"; "American Museum of Natural History"];
      ["Museum of Modern Art"]] 0.

End SequentialRetriever.

(** * Properties *)

Section Properties.

Context {Client Any : Type}.
Variable str : Any -> string.
Variable json_loads : string -> loads_result.
Variable remote : SubmitCall -> result unit.

Local Abbreviation Tool := (FunctionTool Any).
Local Abbreviation Handler := (EventHandler Client Any).
Local Abbreviation decode := (decode_arguments json_loads).
Local Abbreviation process := (process_tool_call str json_loads).
Local Abbreviation loop := (for_tool_calls str json_loads).
Local Abbreviation handle := (handle_requires_action str json_loads remote).
Local Abbreviation ok := (processable (Client := Client) (Any := Any) json_loads).

(** The entry appended for a call whose tool received [kwargs]. *)
Local Abbreviation entry_for tool_call tool kwargs :=
  (mkToolOutputParam (tc_id tool_call) (outcome_str (invoke str tool kwargs))).

(** ** The effect log *)

Lemma resume_calls_app (l1 l2 : list Effect) :
  resume_calls (l1 ++ l2) = (resume_calls l1 + resume_calls l2)%nat.
Proof.
  unfold resume_calls. induction l1 as [|e l1 IH]; [reflexivity|].
  cbn [app]. rewrite !filter_cons.
  destruct (decide (is_submit e = true)); cbn [length]; rewrite IH; reflexivity.
Qed.

Lemma resume_calls_invoked (tool : string) (kwargs : pyval) :
  resume_calls [Invoked tool kwargs] = 0%nat.
Proof. reflexivity. Qed.

Lemma resume_calls_submitted (call : SubmitCall) :
  resume_calls [Submitted call] = 1%nat.
Proof. reflexivity. Qed.

(** ** One pass through the loop body *)

(** The four ways lines 31-47 can go, in the order the source tests them. *)
Lemma process_tool_call_cases (self : Handler) (c : ToolCall) (log : list Effect) :
  process self c log =
  if negb (String.eqb (tc_type c) "function")
  then (Raise (Exception ("Unexpected tool_call.type=" +:+ tc_type c)), log)
  else match tools_by_name self !! fn_name (tc_function c) with
       | None => (Raise (KeyError (fn_name (tc_function c))), log)
       | Some tool =>
           if String.eqb (fn_arguments (tc_function c)) ""
           then (Return (entry_for c tool empty_dict),
                 log ++ [Invoked (name (metadata tool)) empty_dict])
           else match json_loads (fn_arguments (tc_function c)) with
                | Loaded v => (Return (entry_for c tool v),
                               log ++ [Invoked (name (metadata tool)) v])
                | JSONDecodeError =>
                    (Raise (Exception ("Failed to parse tool arguments: "
                                       +:+ fn_arguments (tc_function c))), log)
                | LoadsRaised e => (Raise e, log)
                end
       end.
Proof.
  unfold process_tool_call, bind, getitem, decode_arguments, call_tool, emit,
    ret, raise.
  destruct (negb _); [reflexivity|].
  destruct (tools_by_name self !! _) as [tool|]; [|reflexivity].
  destruct (String.eqb (fn_arguments _) ""); [reflexivity|].
  destruct (json_loads _); reflexivity.
Qed.

(** The loop body only ever logs tool invocations, and logs nothing when it
    raises. *)
Lemma process_tool_call_log (self : Handler) (c : ToolCall) (log : list Effect) :
  exists evs, snd (process self c log) = log ++ evs
              /\ resume_calls evs = 0%nat
              /\ (raised (fst (process self c log)) = true -> evs = []).
Proof.
  rewrite process_tool_call_cases.
  destruct (negb _).
  { exists []. rewrite app_nil_r. auto. }
  destruct (tools_by_name self !! _) as [tool|].
  2:{ exists []. rewrite app_nil_r. auto. }
  destruct (String.eqb (fn_arguments _) "").
  { eexists. split; [reflexivity|]. split; [reflexivity|]. discriminate. }
  destruct (json_loads _).
  - eexists. split; [reflexivity|]. split; [reflexivity|]. discriminate.
  - exists []. rewrite app_nil_r. auto.
  - exists []. rewrite app_nil_r. auto.
Qed.

(** A processable call is invoked and yields its entry. *)
Lemma process_processable (self : Handler) (c : ToolCall) (log : list Effect) :
  ok self c = true ->
  exists tool kwargs,
    tools_by_name self !! fn_name (tc_function c) = Some tool
    /\ fst (decode (fn_arguments (tc_function c)) []) = Return kwargs
    /\ process self c log
       = (Return (entry_for c tool kwargs),
          log ++ [Invoked (name (metadata tool)) kwargs]).
Proof.
  unfold processable. intros H.
  apply andb_prop in H as [H Hargs]. apply andb_prop in H as [Hty Hreg].
  apply bool_decide_eq_true in Hreg as [tool Htool].
  rewrite process_tool_call_cases, Hty, Htool. cbn [negb].
  unfold decode_arguments.
  destruct (String.eqb (fn_arguments _) "") eqn:Hempty.
  - exists tool, empty_dict. auto.
  - cbn [orb] in Hargs.
    destruct (json_loads _) as [v| |e]; [|discriminate..].
    exists tool, v. auto.
Qed.

(** A call that yields an entry was processable, and the entry bears its id. *)
Lemma process_returns (self : Handler) (c : ToolCall) (log log' : list Effect)
    (entry : ToolOutputParam) :
  process self c log = (Return entry, log') ->
  ok self c = true /\ tool_call_id entry = tc_id c.
Proof.
  rewrite process_tool_call_cases. unfold processable.
  destruct (String.eqb (tc_type c) "function"); cbn [negb andb]; [|discriminate].
  destruct (tools_by_name self !! _) as [tool|] eqn:Htool; [|discriminate].
  rewrite bool_decide_eq_true_2 by eauto. cbn [andb].
  destruct (String.eqb (fn_arguments _) ""); cbn [orb].
  { intros [= <- _]. auto. }
  destruct (json_loads _) as [v| |e]; [|discriminate..].
  intros [= <- _]. auto.
Qed.

(** ** The loop *)

Lemma for_tool_calls_app (self : Handler) (pre post : list ToolCall)
    (acc : list ToolOutputParam) (log : list Effect) :
  loop self (pre ++ post) acc log
  = bind (loop self pre acc) (fun acc' => loop self post acc') log.
Proof.
  revert acc log. induction pre as [|c pre IH]; intros acc log.
  - reflexivity.
  - cbn [app for_tool_calls]. unfold bind.
    destruct (process self c log) as [[entry|e] log1]; [|reflexivity].
    rewrite IH. reflexivity.
Qed.

(** The loop only ever logs tool invocations. *)
Lemma for_tool_calls_log (self : Handler) (calls : list ToolCall)
    (acc : list ToolOutputParam) (log : list Effect) :
  exists evs, snd (loop self calls acc log) = log ++ evs
              /\ resume_calls evs = 0%nat.
Proof.
  revert acc log. induction calls as [|c calls IH]; intros acc log.
  - exists []. rewrite app_nil_r. auto.
  - cbn [for_tool_calls]. unfold bind.
    destruct (process_tool_call_log self c log) as (evs1 & Hlog1 & Hn1 & _).
    destruct (process self c log) as [[entry|e] log1]; cbn [snd] in Hlog1; subst log1.
    + destruct (IH (acc ++ [entry]) (log ++ evs1)) as (evs2 & Hlog2 & Hn2).
      exists (evs1 ++ evs2). rewrite Hlog2, app_assoc, resume_calls_app, Hn1, Hn2.
      auto.
    + exists evs1. auto.
Qed.

(** A loop that runs to its end has appended one entry per call, in order,
    each bearing its call's id; every call was processable. *)
Lemma for_tool_calls_returns (self : Handler) (calls : list ToolCall)
    (acc outs : list ToolOutputParam) (log log' : list Effect) :
  loop self calls acc log = (Return outs, log') ->
  exists new, outs = acc ++ new
              /\ map tool_call_id new = map tc_id calls
              /\ forallb (ok self) calls = true.
Proof.
  revert acc log. induction calls as [|c calls IH]; intros acc log.
  - cbn. intros [= <- _]. exists []. rewrite app_nil_r. auto.
  - cbn [for_tool_calls]. unfold bind.
    destruct (process self c log) as [[entry|e] log1] eqn:Hc; [|discriminate].
    apply process_returns in Hc as [Hok Hid].
    intros H. apply IH in H as (new & -> & Hids & Hall).
    exists (entry :: new). rewrite <- app_assoc. cbn. rewrite Hid, Hids, Hok, Hall.
    auto.
Qed.

(** On processable calls the loop runs to its end. *)
Lemma for_tool_calls_processable (self : Handler) (calls : list ToolCall)
    (acc : list ToolOutputParam) (log : list Effect) :
  forallb (ok self) calls = true ->
  exists new evs,
    loop self calls acc log = (Return (acc ++ new), log ++ evs)
    /\ map tool_call_id new = map tc_id calls
    /\ resume_calls evs = 0%nat.
Proof.
  intros Hall.
  destruct (loop self calls acc log) as [[outs|e] log'] eqn:Hrun.
  - destruct (for_tool_calls_log self calls acc log) as (evs & Hlog & Hn).
    rewrite Hrun in Hlog. cbn in Hlog. subst log'.
    destruct (for_tool_calls_returns _ _ _ _ _ _ Hrun) as (new & -> & Hids & _).
    eauto.
  - exfalso. revert acc log Hrun.
    induction calls as [|c calls IH]; intros acc log; [discriminate|].
    cbn [forallb] in Hall. apply andb_prop in Hall as [Hc Hrest].
    cbn [for_tool_calls]. unfold bind.
    destruct (process_processable self c log Hc) as (tool & kwargs & _ & _ & ->).
    apply IH, Hrest.
Qed.

(** A call the loop body raises on makes the whole loop raise, the first
    such call deciding the exception. *)
Lemma for_tool_calls_raises_at (self : Handler) (pre post : list ToolCall)
    (c : ToolCall) (acc : list ToolOutputParam) (log : list Effect) (e : PyExc) :
  forallb (ok self) pre = true ->
  (forall log1, fst (process self c log1) = Raise e) ->
  fst (loop self (pre ++ c :: post) acc log) = Raise e.
Proof.
  intros Hpre Hc. rewrite for_tool_calls_app. unfold bind at 1.
  destruct (for_tool_calls_processable self pre acc log Hpre)
    as (new & evs & -> & _ & _).
  cbn [for_tool_calls]. unfold bind.
  specialize (Hc (log ++ evs)).
  destruct (process self c (log ++ evs)) as [[entry|e'] log1]; cbn in Hc;
    [discriminate|].
  cbn. injection Hc as ->. reflexivity.
Qed.

(** A batch holding a call that is not processable never runs to its end. *)
Lemma for_tool_calls_raises (self : Handler) (calls : list ToolCall)
    (c : ToolCall) (acc : list ToolOutputParam) (log : list Effect) :
  In c calls -> ok self c = false ->
  raised (fst (loop self calls acc log)) = true.
Proof.
  intros Hin Hbad.
  destruct (loop self calls acc log) as [[outs|e] log'] eqn:Hrun; [|reflexivity].
  apply for_tool_calls_returns in Hrun as (_ & _ & _ & Hall).
  rewrite forallb_forall in Hall. rewrite (Hall c Hin) in Hbad. discriminate.
Qed.

(** ** Submitting *)

Lemma handle_requires_action_cases (self : Handler) (data : Run)
    (run_id : string) (log : list Effect) :
  handle self data run_id log =
  match loop self (pending_tool_calls data) [] log with
  | (Return outs, log1) =>
      match current_run self with
      | Some cur =>
          let call := mkSubmitCall (cur_thread_id cur) (cur_id cur) outs in
          (remote call, log1 ++ [Submitted call])
      | None =>
          (Raise (AttributeError "'NoneType' object has no attribute 'thread_id'"),
           log1)
      end
  | (Raise e, log1) => (Raise e, log1)
  end.
Proof.
  unfold handle_requires_action, bind, submit_tool_outputs.
  destruct (loop self _ [] log) as [[outs|e] log1]; [|reflexivity].
  destruct (current_run self); reflexivity.
Qed.

(** A batch of processable calls is submitted whole. *)
Lemma handle_requires_action_processable (self : Handler) (data : Run)
    (run_id : string) (cur : CurrentRun) (log : list Effect) :
  current_run self = Some cur ->
  forallb (ok self) (pending_tool_calls data) = true ->
  exists outs evs,
    loop self (pending_tool_calls data) [] log = (Return outs, log ++ evs)
    /\ handle self data run_id log
       = (remote (mkSubmitCall (cur_thread_id cur) (cur_id cur) outs),
          log ++ evs ++ [Submitted (mkSubmitCall (cur_thread_id cur) (cur_id cur) outs)])
    /\ resume_calls evs = 0%nat
    /\ map tool_call_id outs = map tc_id (pending_tool_calls data).
Proof.
  intros Hcur Hall. rewrite handle_requires_action_cases, Hcur.
  destruct (for_tool_calls_processable self _ [] log Hall)
    as (outs & evs & -> & Hids & Hn).
  exists outs, evs. cbn [app]. rewrite <- app_assoc. auto.
Qed.

(** C1: a batch of N pending calls that is processed to completion (every
    call of kind "function", every name registered, every payload empty or
    decodable) is submitted as N entries whose call ids are the batch's call
    ids, in the batch's order: a permutation of them, none dropped, none
    repeated unless the batch repeats it. *)
Theorem submission_covers_batch (self : Handler) (data : Run)
    (run_id : string) (cur : CurrentRun) (log : list Effect) :
  current_run self = Some cur ->
  forallb (ok self) (pending_tool_calls data) = true ->
  exists outs evs,
    snd (handle self data run_id log)
    = log ++ evs ++ [Submitted (mkSubmitCall (cur_thread_id cur) (cur_id cur) outs)]
    /\ resume_calls evs = 0%nat
    /\ length outs = length (pending_tool_calls data)
    /\ map tool_call_id outs = map tc_id (pending_tool_calls data)
    /\ Permutation (map tool_call_id outs) (map tc_id (pending_tool_calls data))
    /\ (NoDup (map tc_id (pending_tool_calls data)) ->
        NoDup (map tool_call_id outs)).
Proof.
  intros Hcur Hall.
  destruct (handle_requires_action_processable self data run_id cur log Hcur Hall)
    as (outs & evs & _ & Hrun & Hn & Hids).
  exists outs, evs. rewrite Hrun. cbn [snd].
  split; [reflexivity|]. split; [exact Hn|].
  split.
  { rewrite <- (length_map tool_call_id outs), Hids. apply length_map. }
  split; [exact Hids|]. rewrite Hids. split; [reflexivity|]. auto.
Qed.

(** C4: whatever the batch, the events [handle_requires_action] adds to the
    log hold at most one resume call; when there is one it is the last
    event, it comes after the loop has run to its end, and it carries the
    loop's whole output list, one entry per call of the batch; when the loop
    raises on some call there is none. *)
Theorem resume_issued_at_most_once (self : Handler) (data : Run)
    (run_id : string) (log : list Effect) :
  exists evs,
    snd (handle self data run_id log) = log ++ evs
    /\ (resume_calls evs <= 1)%nat
    /\ (forall call, In (Submitted call) evs ->
          exists invocations,
            evs = invocations ++ [Submitted call]
            /\ resume_calls invocations = 0%nat
            /\ loop self (pending_tool_calls data) [] log
               = (Return (tool_outputs call), log ++ invocations)
            /\ map tool_call_id (tool_outputs call)
               = map tc_id (pending_tool_calls data))
    /\ (raised (fst (loop self (pending_tool_calls data) [] log)) = true ->
        resume_calls evs = 0%nat).
Proof.
  rewrite handle_requires_action_cases.
  destruct (for_tool_calls_log self (pending_tool_calls data) [] log)
    as (invs & Hlog & Hn).
  assert (Hnone : forall call, ~ In (Submitted call) invs).
  { intros call Hin. clear Hlog. unfold resume_calls in Hn.
    induction invs as [|e invs IH]; [destruct Hin|].
    rewrite filter_cons in Hn. destruct Hin as [->|Hin].
    - cbn in Hn. discriminate.
    - destruct (decide (is_submit e = true)); [discriminate|]. auto. }
  destruct (loop self (pending_tool_calls data) [] log) as [[outs|e] log1] eqn:Hrun;
    cbn [fst snd] in *; subst log1.
  - destruct (for_tool_calls_returns _ _ _ _ _ _ Hrun) as (new & Hnew & Hids & _).
    cbn [app] in Hnew. subst new.
    destruct (current_run self) as [cur|].
    + eexists (invs ++ [Submitted _]). cbn [snd]. rewrite app_assoc.
      split; [reflexivity|].
      rewrite resume_calls_app, Hn, resume_calls_submitted.
      split; [auto|]. split; [|discriminate].
      intros call Hin. apply in_app_or in Hin as [Hin|[Hin|[]]].
      { destruct (Hnone call Hin). }
      injection Hin as <-. exists invs. cbn [tool_outputs]. auto.
    + exists invs. cbn [snd]. rewrite Hn. split; [reflexivity|].
      split; [auto|]. split; [|auto].
      intros call Hin. destruct (Hnone call Hin).
  - exists invs. cbn [snd]. rewrite Hn. split; [reflexivity|].
    split; [auto|]. split; [|auto].
    intros call Hin. destruct (Hnone call Hin).
Qed.

(** ** Decoding and invoking one call *)

Lemma decode_arguments_cases (arguments : string) (log : list Effect) :
  decode arguments log =
  (if String.eqb arguments "" then Return empty_dict
   else match json_loads arguments with
        | Loaded v => Return v
        | JSONDecodeError =>
            Raise (Exception ("Failed to parse tool arguments: " +:+ arguments))
        | LoadsRaised e => Raise e
        end, log).
Proof.
  unfold decode_arguments, ret, raise.
  destruct (String.eqb arguments ""); [reflexivity|].
  destruct (json_loads arguments); reflexivity.
Qed.

(** A call of kind "function" to a registered tool whose arguments decode to
    [kwargs]: the tool's function is invoked on exactly [kwargs] and the
    call yields its entry. *)
Lemma process_tool_call_decoded (self : Handler) (c : ToolCall) (tool : Tool)
    (kwargs : pyval) (log : list Effect) :
  tc_type c = "function" ->
  tools_by_name self !! fn_name (tc_function c) = Some tool ->
  fst (decode (fn_arguments (tc_function c)) []) = Return kwargs ->
  process self c log
  = (Return (entry_for c tool kwargs),
     log ++ [Invoked (name (metadata tool)) kwargs]).
Proof.
  intros Hty Htool. rewrite decode_arguments_cases, process_tool_call_cases.
  rewrite Hty, Htool, String.eqb_refl. cbn [negb fst].
  destruct (String.eqb (fn_arguments _) ""); [intros [= <-]; reflexivity|].
  destruct (json_loads _) as [v| |e];
    [intros [= <-]; reflexivity|discriminate..].
Qed.

(** C2: a tool function that raises does not make [call_tool] raise: the
    outcome is a failure of kind ToolExecutionError with the exception's
    message, that message is the call's output string, and the loop goes on
    with the calls after it; when those are processable too the batch is
    submitted with an entry for every call, the failed one included. *)
Theorem tool_exception_is_reported (self : Handler) (data : Run)
    (run_id : string) (cur : CurrentRun) (log : list Effect)
    (pre post : list ToolCall) (c : ToolCall) (tool : Tool) (kwargs : pyval)
    (cls msg : string) :
  pending_tool_calls data = pre ++ c :: post ->
  current_run self = Some cur ->
  forallb (ok self) pre = true ->
  tc_type c = "function" ->
  tools_by_name self !! fn_name (tc_function c) = Some tool ->
  fst (decode (fn_arguments (tc_function c)) []) = Return kwargs ->
  fn tool kwargs = Raises cls msg ->
  (forall log1,
      call_tool str tool kwargs log1
      = (Return (Failure ToolExecutionError msg),
         log1 ++ [Invoked (name (metadata tool)) kwargs]))
  /\ (exists before evs,
        map tool_call_id before = map tc_id pre
        /\ resume_calls evs = 0%nat
        /\ loop self (pending_tool_calls data) [] log
           = loop self post (before ++ [mkToolOutputParam (tc_id c) msg])
               (log ++ evs ++ [Invoked (name (metadata tool)) kwargs]))
  /\ (forallb (ok self) post = true ->
      exists outs evs,
        handle self data run_id log
        = (remote (mkSubmitCall (cur_thread_id cur) (cur_id cur) outs),
           log ++ evs
           ++ [Submitted (mkSubmitCall (cur_thread_id cur) (cur_id cur) outs)])
        /\ resume_calls evs = 0%nat
        /\ map tool_call_id outs = map tc_id (pending_tool_calls data)
        /\ outs !! length pre = Some (mkToolOutputParam (tc_id c) msg)).
Proof.
  intros Hsplit Hcur Hpre Hty Htool Hdec Hraise.
  assert (Hout : invoke str tool kwargs = Failure ToolExecutionError msg).
  { unfold invoke. rewrite Hraise. reflexivity. }
  split.
  { intros log1. unfold call_tool, bind, emit, ret. rewrite Hout. reflexivity. }
  destruct (for_tool_calls_processable self pre [] log Hpre)
    as (before & evs & Hrun & Hids & Hn). cbn [app] in Hrun.
  assert (Hloop : loop self (pending_tool_calls data) [] log
                  = loop self post (before ++ [mkToolOutputParam (tc_id c) msg])
                      (log ++ evs ++ [Invoked (name (metadata tool)) kwargs])).
  { rewrite Hsplit, for_tool_calls_app. unfold bind at 1. rewrite Hrun.
    cbn [for_tool_calls]. unfold bind.
    rewrite (process_tool_call_decoded self c tool kwargs _ Hty Htool Hdec).
    rewrite Hout, <- app_assoc. reflexivity. }
  split; [eauto|].
  intros Hpost.
  destruct (for_tool_calls_processable self post
              (before ++ [mkToolOutputParam (tc_id c) msg])
              (log ++ evs ++ [Invoked (name (metadata tool)) kwargs]) Hpost)
    as (after & evs' & Hrun' & Hids' & Hn').
  rewrite handle_requires_action_cases, Hloop, Hrun', Hcur.
  eexists _, (evs ++ [Invoked (name (metadata tool)) kwargs] ++ evs').
  split.
  { f_equal. rewrite <- !app_assoc. reflexivity. }
  split.
  { rewrite !resume_calls_app, Hn, Hn'. reflexivity. }
  split.
  { rewrite Hsplit, !map_app, Hids. cbn [map]. rewrite Hids', <- app_assoc.
    reflexivity. }
  rewrite <- app_assoc. cbn [app].
  replace (length pre) with (length before).
  - apply list_lookup_middle. reflexivity.
  - rewrite <- (length_map tool_call_id before), Hids. apply length_map.
Qed.

(** ** Batches that cannot be completed *)

(** A batch holding a call the loop body does not get through raises, and
    nothing is submitted. *)
Lemma handle_requires_action_aborts (self : Handler) (data : Run)
    (run_id : string) (log : list Effect) (c : ToolCall) :
  In c (pending_tool_calls data) ->
  ok self c = false ->
  raised (fst (handle self data run_id log)) = true
  /\ exists evs, snd (handle self data run_id log) = log ++ evs
                 /\ resume_calls evs = 0%nat.
Proof.
  intros Hin Hbad. rewrite handle_requires_action_cases.
  pose proof (for_tool_calls_raises self _ c [] log Hin Hbad) as Hr.
  pose proof (for_tool_calls_log self (pending_tool_calls data) [] log) as Hl.
  destruct (loop self (pending_tool_calls data) [] log) as [[outs|e] log1];
    [discriminate|].
  auto.
Qed.

(** The exception of the first call that is not processable is the one the
    handler raises. *)
Lemma handle_requires_action_raises_at (self : Handler) (data : Run)
    (run_id : string) (log : list Effect) (pre post : list ToolCall)
    (c : ToolCall) (e : PyExc) :
  pending_tool_calls data = pre ++ c :: post ->
  forallb (ok self) pre = true ->
  (forall log1, fst (process self c log1) = Raise e) ->
  fst (handle self data run_id log) = Raise e.
Proof.
  intros Hsplit Hpre Hc. rewrite handle_requires_action_cases.
  pose proof (for_tool_calls_raises_at self pre post c [] log e Hpre Hc) as Hr.
  rewrite <- Hsplit in Hr.
  destruct (loop self (pending_tool_calls data) [] log) as [[outs|e'] log1];
    cbn in Hr; [discriminate|].
  injection Hr as ->. reflexivity.
Qed.

(** C3 (amended): a batch holding a call whose tool name is not a key of
    [tools_by_name] raises and issues no resume call; the exception is the
    [KeyError] of the registry lookup on that name whenever the call is of
    kind "function" and the calls before it are processable. *)
Theorem unknown_tool_aborts_batch (self : Handler) (data : Run)
    (run_id : string) (log : list Effect) (c : ToolCall) :
  In c (pending_tool_calls data) ->
  tools_by_name self !! fn_name (tc_function c) = None ->
  raised (fst (handle self data run_id log)) = true
  /\ (exists evs, snd (handle self data run_id log) = log ++ evs
                  /\ resume_calls evs = 0%nat)
  /\ (forall pre post,
        pending_tool_calls data = pre ++ c :: post ->
        forallb (ok self) pre = true ->
        tc_type c = "function" ->
        fst (handle self data run_id log)
        = Raise (KeyError (fn_name (tc_function c)))).
Proof.
  intros Hin Hnone.
  assert (Hbad : ok self c = false).
  { unfold processable. rewrite Hnone, bool_decide_eq_false_2.
    - rewrite andb_false_r. reflexivity.
    - intros [? [=]]. }
  destruct (handle_requires_action_aborts self data run_id log c Hin Hbad)
    as [Hr Hl].
  split; [exact Hr|]. split; [exact Hl|].
  intros pre post Hsplit Hpre Hty.
  apply (handle_requires_action_raises_at self data run_id log pre post c);
    [assumption..|].
  intros log1. rewrite process_tool_call_cases, Hty, Hnone. reflexivity.
Qed.

(** C6 (amended): a batch holding a call whose kind is not "function"
    raises and issues no resume call; the exception is line 32's
    [Exception("Unexpected tool_call.type=...")] for that call whenever the
    calls before it are processable. *)
Theorem non_function_call_aborts_batch (self : Handler) (data : Run)
    (run_id : string) (log : list Effect) (c : ToolCall) :
  In c (pending_tool_calls data) ->
  tc_type c <> "function" ->
  raised (fst (handle self data run_id log)) = true
  /\ (exists evs, snd (handle self data run_id log) = log ++ evs
                  /\ resume_calls evs = 0%nat)
  /\ (forall pre post,
        pending_tool_calls data = pre ++ c :: post ->
        forallb (ok self) pre = true ->
        fst (handle self data run_id log)
        = Raise (Exception ("Unexpected tool_call.type=" +:+ tc_type c))).
Proof.
  intros Hin Hty. apply String.eqb_neq in Hty.
  assert (Hbad : ok self c = false).
  { unfold processable. rewrite Hty. reflexivity. }
  destruct (handle_requires_action_aborts self data run_id log c Hin Hbad)
    as [Hr Hl].
  split; [exact Hr|]. split; [exact Hl|].
  intros pre post Hsplit Hpre.
  apply (handle_requires_action_raises_at self data run_id log pre post c);
    [assumption..|].
  intros log1. rewrite process_tool_call_cases, Hty. reflexivity.
Qed.

(** ** Argument payloads *)

(** C5 (amended): a non-empty payload on which [json.loads] raises
    [json.JSONDecodeError] makes the decoding step raise line 42's
    [Exception], whose message ends with the raw payload; the call yields
    no entry and its tool is not invoked, with no argument set standing in
    for the payload. *)
Theorem malformed_arguments_raise (self : Handler) (c : ToolCall)
    (tool : Tool) (log : list Effect) :
  tc_type c = "function" ->
  tools_by_name self !! fn_name (tc_function c) = Some tool ->
  fn_arguments (tc_function c) <> "" ->
  json_loads (fn_arguments (tc_function c)) = JSONDecodeError ->
  decode (fn_arguments (tc_function c)) log
  = (Raise (Exception ("Failed to parse tool arguments: "
                       +:+ fn_arguments (tc_function c))), log)
  /\ process self c log
     = (Raise (Exception ("Failed to parse tool arguments: "
                          +:+ fn_arguments (tc_function c))), log).
Proof.
  intros Hty Htool Hne Hbad. apply String.eqb_neq in Hne.
  rewrite decode_arguments_cases, process_tool_call_cases.
  rewrite Hty, Htool, Hne, Hbad, String.eqb_refl. auto.
Qed.

(** C9: the empty payload decodes to the empty dict without consulting
    [json.loads], and the call's tool is invoked with no keyword
    arguments. *)
Theorem empty_arguments_decode_to_empty_dict (self : Handler) (c : ToolCall)
    (tool : Tool) (log : list Effect) :
  tc_type c = "function" ->
  tools_by_name self !! fn_name (tc_function c) = Some tool ->
  fn_arguments (tc_function c) = "" ->
  decode (fn_arguments (tc_function c)) log = (Return (PDict []), log)
  /\ process self c log
     = (Return (entry_for c tool (PDict [])),
        log ++ [Invoked (name (metadata tool)) (PDict [])]).
Proof.
  intros Hty Htool Hempty.
  assert (Hdec : forall log1,
             decode (fn_arguments (tc_function c)) log1 = (Return (PDict []), log1)).
  { intros log1. rewrite decode_arguments_cases, Hempty. reflexivity. }
  split; [apply Hdec|].
  apply process_tool_call_decoded; [assumption..|].
  rewrite Hdec. reflexivity.
Qed.

(** C10: a non-empty payload that [json.loads] accepts is not rejected by
    the decoding step even when the decoded value is not a dict: the value
    itself becomes [tool_kwargs], the tool is invoked on it, and whatever
    goes wrong then shows in the call's output. *)
Theorem non_mapping_payload_is_passed_through (self : Handler) (c : ToolCall)
    (tool : Tool) (v : pyval) (log : list Effect) :
  tc_type c = "function" ->
  tools_by_name self !! fn_name (tc_function c) = Some tool ->
  fn_arguments (tc_function c) <> "" ->
  json_loads (fn_arguments (tc_function c)) = Loaded v ->
  is_dict v = false ->
  decode (fn_arguments (tc_function c)) log = (Return v, log)
  /\ process self c log
     = (Return (entry_for c tool v), log ++ [Invoked (name (metadata tool)) v]).
Proof.
  intros Hty Htool Hne Hv _. apply String.eqb_neq in Hne.
  assert (Hdec : forall log1,
             decode (fn_arguments (tc_function c)) log1 = (Return v, log1)).
  { intros log1. rewrite decode_arguments_cases, Hne, Hv. reflexivity. }
  split; [apply Hdec|].
  apply process_tool_call_decoded; [assumption..|].
  rewrite Hdec. reflexivity.
Qed.

(** C7 (amended): a payload that parses to a dict reaches the tool's
    function with all its items, those whose key the tool's schema does not
    declare included; nothing is dropped, and processing the call does not
    raise whatever the keys are. *)
Theorem parsed_payload_is_passed_unfiltered (self : Handler) (c : ToolCall)
    (tool : Tool) (items : list (string * pyval)) (log : list Effect) :
  tc_type c = "function" ->
  tools_by_name self !! fn_name (tc_function c) = Some tool ->
  fn_arguments (tc_function c) <> "" ->
  json_loads (fn_arguments (tc_function c)) = Loaded (PDict items) ->
  process self c log
  = (Return (entry_for c tool (PDict items)),
     log ++ [Invoked (name (metadata tool)) (PDict items)]).
Proof.
  intros Hty Htool Hne Hv. apply String.eqb_neq in Hne.
  apply process_tool_call_decoded; [assumption..|].
  rewrite decode_arguments_cases, Hne, Hv. reflexivity.
Qed.

(** ** Dispatch *)

(** [on_event] acts on "thread.run.requires_action" events only, handing
    the event's run and that run's id to [handle_requires_action]. *)
Lemma on_event_dispatch (self : Handler) (ev : StreamEvent) (log : list Effect) :
  on_event str json_loads remote self ev log
  = if String.eqb (event ev) "thread.run.requires_action"
    then handle self (data ev) (run_id_ (data ev)) log
    else (Return tt, log).
Proof.
  unfold on_event. destruct (String.eqb (event ev) _); reflexivity.
Qed.

(** ** The registry *)

(** Appending a tool to the list stores it under its name, over whatever
    was there. *)
Lemma dict_by_name_snoc (tools : list Tool) (tool : Tool) :
  dict_by_name (tools ++ [tool])
  = <[name (metadata tool) := tool]> (dict_by_name tools).
Proof. unfold dict_by_name. rewrite foldl_app. reflexivity. Qed.

Lemma dict_by_name_last (pre post : list Tool) (tool : Tool) :
  Forall (fun t => name (metadata t) <> name (metadata tool)) post ->
  dict_by_name (pre ++ tool :: post) !! name (metadata tool) = Some tool.
Proof.
  induction post as [|t post IH] using rev_ind; intros Hpost.
  - rewrite dict_by_name_snoc. apply lookup_insert_eq.
  - apply Forall_app in Hpost as [Hpost Ht]. apply Forall_inv in Ht.
    rewrite app_comm_cons, app_assoc, dict_by_name_snoc.
    rewrite lookup_insert_ne by exact Ht. apply IH, Hpost.
Qed.

Lemma dict_by_name_None (tools : list Tool) (n : string) :
  dict_by_name tools !! n = None
  <-> Forall (fun t => name (metadata t) <> n) tools.
Proof.
  induction tools as [|t tools IH] using rev_ind.
  - split; [constructor|]. intros _. apply lookup_empty.
  - rewrite dict_by_name_snoc, Forall_app, <- IH. split.
    + intros H. destruct (decide (name (metadata t) = n)) as [<-|Hne].
      * rewrite lookup_insert_eq in H. discriminate.
      * rewrite lookup_insert_ne in H by exact Hne. auto.
    + intros [H Ht]. apply Forall_inv in Ht.
      rewrite lookup_insert_ne by exact Ht. exact H.
Qed.

(** C8 (amended): building the registry never raises, whatever names the
    tools bear; each name is mapped to the last tool of the list that bears
    it, so a tool whose name is already present replaces the earlier one. *)
Theorem registry_keeps_last_of_each_name (client0 : Client) (tools : list Tool) :
  exists self : Handler,
    __init__ client0 tools = Return self
    /\ (forall pre tool post,
          tools = pre ++ tool :: post ->
          Forall (fun t => name (metadata t) <> name (metadata tool)) post ->
          tools_by_name self !! name (metadata tool) = Some tool)
    /\ (forall n,
          tools_by_name self !! n = None
          <-> Forall (fun t => name (metadata t) <> n) tools)
    /\ (forall tool,
          dict_by_name (tools ++ [tool])
          = <[name (metadata tool) := tool]> (tools_by_name self)).
Proof.
  eexists. split; [reflexivity|]. cbn [tools_by_name].
  split.
  { intros pre tool post -> Hpost. apply dict_by_name_last, Hpost. }
  split; [apply dict_by_name_None|apply dict_by_name_snoc].
Qed.

End Properties.

(** * The properties on the concrete session *)

Import Scenario.

(** C1 at a batch of two calls, one of which fails inside its tool. *)
Lemma submission_covers_batch_witness :
  current_run handler = Some (mkCurrentRun "thread_1" "run_1")
  /\ forallb (processable Json.loads handler)
       (pending_tool_calls (run_with [call_temperature; call_explode])) = true
  /\ exists outs evs,
       snd (handle_requires_action str Json.loads remote handler
              (run_with [call_temperature; call_explode]) "run_1" [])
       = [] ++ evs ++ [Submitted (mkSubmitCall "thread_1" "run_1" outs)]
       /\ length outs = 2%nat
       /\ map tool_call_id outs = ["call_1"; "call_2"].
Proof.
  split; [reflexivity|]. split; [vm_compute; reflexivity|].
  destruct (submission_covers_batch str Json.loads remote handler
              (run_with [call_temperature; call_explode]) "run_1"
              (mkCurrentRun "thread_1" "run_1") [])
    as (outs & evs & Hlog & _ & Hlen & Hids & _);
    [reflexivity|vm_compute; reflexivity|].
  exists outs, evs. auto.
Defined.

(** C4 at the same batch: one resume call, last in the log, with both
    entries; and at a batch that aborts: none. *)
Lemma resume_issued_at_most_once_witness :
  (exists evs,
     snd (handle_requires_action str Json.loads remote handler
            (run_with [call_temperature; call_explode]) "run_1" [])
     = [] ++ evs
     /\ resume_calls evs = 1%nat
     /\ exists call invocations,
          evs = invocations ++ [Submitted call]
          /\ resume_calls invocations = 0%nat
          /\ map tool_call_id (tool_outputs call) = ["call_1"; "call_2"])
  /\ (exists evs,
        snd (handle_requires_action str Json.loads remote handler
               (run_with [call_temperature; call_malformed]) "run_1" [])
        = [] ++ evs
        /\ resume_calls evs = 0%nat).
Proof.
  split.
  - destruct (resume_issued_at_most_once str Json.loads remote handler
                (run_with [call_temperature; call_explode]) "run_1" [])
      as (evs & Hlog & _ & Hsubmit & _).
    exists evs. split; [exact Hlog|].
    vm_compute in Hlog. subst evs. split; [reflexivity|].
    destruct (Hsubmit _ (or_intror (or_intror (or_introl eq_refl))))
      as (invocations & Hevs & Hn & _ & Hids).
    eexists _, invocations. split; [exact Hevs|]. split; [exact Hn|].
    exact Hids.
  - destruct (resume_issued_at_most_once str Json.loads remote handler
                (run_with [call_temperature; call_malformed]) "run_1" [])
      as (evs & Hlog & _ & _ & Hnone).
    exists evs. split; [exact Hlog|]. apply Hnone. vm_compute. reflexivity.
Defined.

(** C2 at the scenario "one tool raises, one succeeds": both entries are
    submitted, the first holding the exception's message. *)
Lemma tool_exception_is_reported_witness :
  pending_tool_calls (run_with [call_explode; call_temperature])
  = [] ++ call_explode :: [call_temperature]
  /\ current_run handler = Some (mkCurrentRun "thread_1" "run_1")
  /\ forallb (processable Json.loads handler) [] = true
  /\ tc_type call_explode = "function"
  /\ tools_by_name handler !! fn_name (tc_function call_explode) = Some explode
  /\ fst (decode_arguments Json.loads (fn_arguments (tc_function call_explode)) [])
     = Return (PDict [])
  /\ fn explode (PDict []) = Raises "RuntimeError" "boom"
  /\ call_tool str explode (PDict []) []
     = (Return (Failure ToolExecutionError "boom"), [Invoked "explode" (PDict [])])
  /\ exists outs evs,
       handle_requires_action str Json.loads remote handler
         (run_with [call_explode; call_temperature]) "run_1" []
       = (remote (mkSubmitCall "thread_1" "run_1" outs),
          [] ++ evs ++ [Submitted (mkSubmitCall "thread_1" "run_1" outs)])
       /\ map tool_call_id outs = ["call_2"; "call_1"]
       /\ outs !! 0%nat = Some (mkToolOutputParam "call_2" "boom").
Proof.
  do 7 (split; [vm_compute; reflexivity|]).
  destruct (tool_exception_is_reported str Json.loads remote handler
              (run_with [call_explode; call_temperature]) "run_1"
              (mkCurrentRun "thread_1" "run_1") [] [] [call_temperature]
              call_explode explode (PDict []) "RuntimeError" "boom")
    as (Hcall & _ & Hsubmit); try (vm_compute; reflexivity).
  split; [apply Hcall|].
  destruct Hsubmit as (outs & evs & Hrun & _ & Hids & Hfailed);
    [vm_compute; reflexivity|].
  exists outs, evs. auto.
Defined.

(** C3 as stated fails: the unknown tool's call comes second, the first call
    is of kind "retrieval", and the handler raises line 32's exception, not
    the registry's [KeyError]. *)
Lemma unknown_tool_error_preempted :
  In call_unknown (pending_tool_calls (run_with [call_retrieval; call_unknown]))
  /\ tools_by_name handler !! fn_name (tc_function call_unknown) = None
  /\ fst (handle_requires_action str Json.loads remote handler
            (run_with [call_retrieval; call_unknown]) "run_1" [])
     = Raise (Exception "Unexpected tool_call.type=retrieval")
  /\ fst (handle_requires_action str Json.loads remote handler
            (run_with [call_retrieval; call_unknown]) "run_1" [])
     <> Raise (KeyError "nonexistent_tool").
Proof.
  split; [right; left; reflexivity|].
  split; [vm_compute; reflexivity|].
  split; [vm_compute; reflexivity|].
  vm_compute. discriminate.
Qed.

(** C3 (amended) at a batch whose second call names an unknown tool. *)
Lemma unknown_tool_aborts_batch_witness :
  In call_unknown (pending_tool_calls (run_with [call_temperature; call_unknown]))
  /\ tools_by_name handler !! fn_name (tc_function call_unknown) = None
  /\ fst (handle_requires_action str Json.loads remote handler
            (run_with [call_temperature; call_unknown]) "run_1" [])
     = Raise (KeyError "nonexistent_tool")
  /\ exists evs,
       snd (handle_requires_action str Json.loads remote handler
              (run_with [call_temperature; call_unknown]) "run_1" [])
       = [] ++ evs
       /\ resume_calls evs = 0%nat.
Proof.
  assert (Hin : In call_unknown
                  (pending_tool_calls (run_with [call_temperature; call_unknown])))
    by (right; left; reflexivity).
  split; [exact Hin|]. split; [vm_compute; reflexivity|].
  destruct (unknown_tool_aborts_batch str Json.loads remote handler
              (run_with [call_temperature; call_unknown]) "run_1" []
              call_unknown Hin)
    as (_ & Hlog & Hkey); [vm_compute; reflexivity|].
  split; [|exact Hlog].
  apply (Hkey [call_temperature] []); vm_compute; reflexivity.
Defined.

(** C6 as stated fails: the call of kind "retrieval" comes second, the first
    call names an unknown tool, and the handler raises the registry's
    [KeyError], not line 32's exception. *)
Lemma protocol_violation_preempted :
  In call_retrieval (pending_tool_calls (run_with [call_unknown; call_retrieval]))
  /\ tc_type call_retrieval <> "function"
  /\ fst (handle_requires_action str Json.loads remote handler
            (run_with [call_unknown; call_retrieval]) "run_1" [])
     = Raise (KeyError "nonexistent_tool")
  /\ fst (handle_requires_action str Json.loads remote handler
            (run_with [call_unknown; call_retrieval]) "run_1" [])
     <> Raise (Exception "Unexpected tool_call.type=retrieval").
Proof.
  split; [right; left; reflexivity|].
  split; [vm_compute; discriminate|].
  split; [vm_compute; reflexivity|].
  vm_compute. discriminate.
Qed.

(** C6 (amended) at a batch whose second call is of kind "retrieval". *)
Lemma non_function_call_aborts_batch_witness :
  In call_retrieval (pending_tool_calls (run_with [call_temperature; call_retrieval]))
  /\ tc_type call_retrieval <> "function"
  /\ fst (handle_requires_action str Json.loads remote handler
            (run_with [call_temperature; call_retrieval]) "run_1" [])
     = Raise (Exception "Unexpected tool_call.type=retrieval")
  /\ exists evs,
       snd (handle_requires_action str Json.loads remote handler
              (run_with [call_temperature; call_retrieval]) "run_1" [])
       = [] ++ evs
       /\ resume_calls evs = 0%nat.
Proof.
  assert (Hin : In call_retrieval
                  (pending_tool_calls (run_with [call_temperature; call_retrieval])))
    by (right; left; reflexivity).
  assert (Hkind : tc_type call_retrieval <> "function")
    by (vm_compute; discriminate).
  split; [exact Hin|]. split; [exact Hkind|].
  destruct (non_function_call_aborts_batch str Json.loads remote handler
              (run_with [call_temperature; call_retrieval]) "run_1" []
              call_retrieval Hin Hkind)
    as (_ & Hlog & Hexc).
  split; [|exact Hlog].
  apply (Hexc [call_temperature] []); vm_compute; reflexivity.
Defined.

(** C5 as stated fails: the payload is an integer literal of 4301 digits,
    on which [json.loads] raises a plain [ValueError]; line 41 does not
    catch it, and it is that [ValueError], not line 42's [Exception] with
    the raw payload, that the decoding step raises. *)
Lemma oversized_integer_not_converted :
  tc_type call_long_integer = "function"
  /\ tools_by_name handler !! fn_name (tc_function call_long_integer)
     = Some fetch_current_temperature
  /\ fn_arguments (tc_function call_long_integer) <> ""
  /\ Json.loads (fn_arguments (tc_function call_long_integer))
     = LoadsRaised (Json.digits_error 4301)
  /\ fst (decode_arguments Json.loads
            (fn_arguments (tc_function call_long_integer)) [])
     = Raise (Json.digits_error 4301)
  /\ fst (decode_arguments Json.loads
            (fn_arguments (tc_function call_long_integer)) [])
     <> Raise (Exception ("Failed to parse tool arguments: "
                          +:+ fn_arguments (tc_function call_long_integer)))
  /\ process_tool_call str Json.loads handler call_long_integer []
     = (Raise (Json.digits_error 4301), []).
Proof.
  assert (Hloads : Json.loads (fn_arguments (tc_function call_long_integer))
                   = LoadsRaised (Json.digits_error 4301))
    by (vm_compute; reflexivity).
  assert (Hdec : fst (decode_arguments Json.loads
                        (fn_arguments (tc_function call_long_integer)) [])
                 = Raise (Json.digits_error 4301))
    by (vm_compute; reflexivity).
  split; [reflexivity|]. split; [vm_compute; reflexivity|].
  split; [vm_compute; discriminate|]. split; [exact Hloads|].
  split; [exact Hdec|]. split; [rewrite Hdec; discriminate|].
  vm_compute. reflexivity.
Qed.

(** C5 (amended) at the payload [{location: Recife], which is not JSON. *)
Lemma malformed_arguments_raise_witness :
  tc_type call_malformed = "function"
  /\ tools_by_name handler !! fn_name (tc_function call_malformed)
     = Some fetch_current_temperature
  /\ fn_arguments (tc_function call_malformed) <> ""
  /\ Json.loads (fn_arguments (tc_function call_malformed)) = JSONDecodeError
  /\ decode_arguments Json.loads "{location: Recife" []
     = (Raise (Exception "Failed to parse tool arguments: {location: Recife"), [])
  /\ process_tool_call str Json.loads handler call_malformed []
     = (Raise (Exception "Failed to parse tool arguments: {location: Recife"), []).
Proof.
  assert (Hne : fn_arguments (tc_function call_malformed) <> "")
    by (vm_compute; discriminate).
  split; [reflexivity|]. split; [vm_compute; reflexivity|].
  split; [exact Hne|]. split; [vm_compute; reflexivity|].
  apply (malformed_arguments_raise str Json.loads handler call_malformed
           fetch_current_temperature []);
    [reflexivity|vm_compute; reflexivity|exact Hne|vm_compute; reflexivity].
Defined.

(** C9 at a call of [fetch_current_temperature] with the empty payload. *)
Lemma empty_arguments_decode_to_empty_dict_witness :
  tc_type call_no_arguments = "function"
  /\ tools_by_name handler !! fn_name (tc_function call_no_arguments)
     = Some fetch_current_temperature
  /\ fn_arguments (tc_function call_no_arguments) = ""
  /\ decode_arguments Json.loads "" [] = (Return (PDict []), [])
  /\ snd (process_tool_call str Json.loads handler call_no_arguments [])
     = [Invoked "fetch_current_temperature" (PDict [])].
Proof.
  split; [reflexivity|]. split; [vm_compute; reflexivity|].
  split; [reflexivity|].
  destruct (empty_arguments_decode_to_empty_dict str Json.loads handler
              call_no_arguments fetch_current_temperature [])
    as [Hdec Hrun]; [reflexivity|vm_compute; reflexivity|reflexivity|].
  split; [exact Hdec|]. rewrite Hrun. reflexivity.
Defined.

(** C10 at the payload [[1,2]]: the list itself is handed to the tool. *)
Lemma non_mapping_payload_is_passed_through_witness :
  tc_type call_list_payload = "function"
  /\ tools_by_name handler !! fn_name (tc_function call_list_payload)
     = Some fetch_current_temperature
  /\ fn_arguments (tc_function call_list_payload) <> ""
  /\ Json.loads (fn_arguments (tc_function call_list_payload))
     = Loaded (PList [PInt 1; PInt 2])
  /\ is_dict (PList [PInt 1; PInt 2]) = false
  /\ decode_arguments Json.loads "[1,2]" []
     = (Return (PList [PInt 1; PInt 2]), [])
  /\ process_tool_call str Json.loads handler call_list_payload []
     = (Return (mkToolOutputParam "call_7" "bad keyword arguments"),
        [Invoked "fetch_current_temperature" (PList [PInt 1; PInt 2])]).
Proof.
  assert (Hne : fn_arguments (tc_function call_list_payload) <> "")
    by (vm_compute; discriminate).
  split; [reflexivity|]. split; [vm_compute; reflexivity|].
  split; [exact Hne|]. split; [vm_compute; reflexivity|].
  split; [reflexivity|].
  apply (non_mapping_payload_is_passed_through str Json.loads handler
           call_list_payload fetch_current_temperature
           (PList [PInt 1; PInt 2]) []);
    [reflexivity|vm_compute; reflexivity|exact Hne|vm_compute; reflexivity
    |reflexivity].
Defined.

(** The other payloads C10 names decode to non-dict values as well. *)
Example scalar_payloads_decode :
  decode_arguments Json.loads "5" [] = (Return (PInt 5), [])
  /\ decode_arguments Json.loads "null" [] = (Return PNone, []).
Proof. split; vm_compute; reflexivity. Qed.

(** C7 as stated fails: the payload carries the field "units", which the
    schema of [fetch_current_temperature] does not declare, and the tool's
    function is invoked with it. *)
Lemma undeclared_field_reaches_tool :
  tools_by_name handler !! fn_name (tc_function call_extra_field)
  = Some fetch_current_temperature
  /\ declared_fields fetch_current_temperature = ["location"]
  /\ Json.loads (fn_arguments (tc_function call_extra_field))
     = Loaded (PDict [("location", PStr "Recife"); ("units", PStr "K")])
  /\ snd (process_tool_call str Json.loads handler call_extra_field [])
     = [Invoked "fetch_current_temperature"
          (PDict [("location", PStr "Recife"); ("units", PStr "K")])]
  /\ ~ In "units" (declared_fields fetch_current_temperature).
Proof.
  do 4 (split; [vm_compute; reflexivity|]).
  intros [H|[]]. discriminate H.
Qed.

(** C7 (amended) at the same call. *)
Lemma parsed_payload_is_passed_unfiltered_witness :
  tc_type call_extra_field = "function"
  /\ tools_by_name handler !! fn_name (tc_function call_extra_field)
     = Some fetch_current_temperature
  /\ fn_arguments (tc_function call_extra_field) <> ""
  /\ Json.loads (fn_arguments (tc_function call_extra_field))
     = Loaded (PDict [("location", PStr "Recife"); ("units", PStr "K")])
  /\ process_tool_call str Json.loads handler call_extra_field []
     = (Return (mkToolOutputParam "call_8" "bad keyword arguments"),
        [Invoked "fetch_current_temperature"
           (PDict [("location", PStr "Recife"); ("units", PStr "K")])]).
Proof.
  assert (Hne : fn_arguments (tc_function call_extra_field) <> "")
    by (vm_compute; discriminate).
  split; [reflexivity|]. split; [vm_compute; reflexivity|].
  split; [exact Hne|]. split; [vm_compute; reflexivity|].
  apply (parsed_payload_is_passed_unfiltered str Json.loads handler
           call_extra_field fetch_current_temperature
           [("location", PStr "Recife"); ("units", PStr "K")] []);
    [reflexivity|vm_compute; reflexivity|exact Hne|vm_compute; reflexivity].
Defined.

(** C8 as stated fails: two tools named "fetch_current_temperature" are
    accepted, and the registry silently keeps the second. *)
Lemma duplicate_name_is_accepted :
  name (metadata fetch_current_temperature)
  = name (metadata fetch_current_temperature_v2)
  /\ exists self : EventHandler unit string,
       __init__ tt [fetch_current_temperature; fetch_current_temperature_v2]
       = Return self
       /\ tools_by_name self !! "fetch_current_temperature"
          = Some fetch_current_temperature_v2.
Proof.
  split; [reflexivity|]. eexists. split; [reflexivity|].
  vm_compute. reflexivity.
Qed.

(** * Further properties of the registry *)

Section Registry.

Context {Any : Type}.

Local Abbreviation Tool := (FunctionTool Any).
Local Abbreviation name_of := (fun tool : Tool => name (metadata tool)).

(** Where a list holds a tool of a given name, it holds a last one. *)
Lemma last_of_name (tools : list Tool) (key : string) :
  Exists (fun t => name_of t = key) tools ->
  exists pre tool post,
    tools = pre ++ tool :: post
    /\ name_of tool = key
    /\ Forall (fun t => name_of t <> key) post.
Proof.
  induction tools as [|t tools IH] using rev_ind; intros Hex.
  - inversion Hex.
  - destruct (decide (name_of t = key)) as [Ht|Ht].
    + exists tools, t, []. auto.
    + apply Exists_app in Hex as [Hex|Hex].
      * destruct (IH Hex) as (pre & tool & post & -> & Hname & Hpost).
        exists pre, tool, (post ++ [t]). rewrite <- app_assoc. cbn.
        split; [reflexivity|]. split; [exact Hname|].
        apply Forall_app. auto.
      * inversion Hex as [? ? Hhead|? ? Htail]; [contradiction|inversion Htail].
Qed.

(** What a lookup in the registry finds is the last tool of that name. *)
Lemma dict_by_name_lookup (tools : list Tool) (key : string) (tool : Tool) :
  dict_by_name tools !! key = Some tool ->
  exists pre post,
    tools = pre ++ tool :: post
    /\ name_of tool = key
    /\ Forall (fun t => name_of t <> key) post.
Proof.
  intros Hlook.
  destruct (decide (Exists (fun t => name_of t = key) tools)) as [Hex|Hno].
  - destruct (last_of_name tools key Hex) as (pre & t & post & -> & Hname & Hpost).
    pose proof (dict_by_name_last pre post t) as Hlast.
    cbn in Hname. rewrite Hname in Hlast. rewrite Hlast in Hlook by exact Hpost.
    injection Hlook as <-. eauto.
  - apply not_Exists_Forall in Hno; [|intros t; apply _].
    apply dict_by_name_None in Hno. congruence.
Qed.

Lemma dict_by_name_keyed (tools : list Tool) :
  keyed_by_name (dict_by_name tools).
Proof.
  intros key tool Hlook.
  apply dict_by_name_lookup in Hlook as (_ & _ & _ & Hname & _). exact Hname.
Qed.

(** Every stored tool of a registry is among its values, and conversely. *)
Lemma is_values_elem (d : gmap string Tool) (values : list Tool) (tool : Tool) :
  is_values d values ->
  tool ∈ values <-> exists key, d !! key = Some tool.
Proof.
  unfold is_values. intros ->. rewrite list_elem_of_fmap. split.
  - intros ([key t] & -> & Hin). exists key. apply elem_of_map_to_list, Hin.
  - intros [key Hkey]. exists (key, tool). split; [reflexivity|].
    apply elem_of_map_to_list, Hkey.
Qed.

(** Rebuilding a registry from its values gives the registry back. *)
Lemma dict_by_name_values (d : gmap string Tool) (values : list Tool) :
  keyed_by_name d -> is_values d values -> dict_by_name values = d.
Proof.
  intros Hkeys Hvalues. apply map_eq. intros key.
  destruct (d !! key) as [tool|] eqn:Hd.
  - assert (Hex : Exists (fun t => name_of t = key) values).
    { apply Exists_exists. exists tool. split.
      - apply (is_values_elem d values tool Hvalues). eauto.
      - apply (Hkeys _ _ Hd). }
    destruct (last_of_name values key Hex) as (pre & t & post & Hsplit & Hname & Hpost).
    assert (Ht : t ∈ values).
    { rewrite Hsplit. apply elem_of_app. right. left. }
    apply (is_values_elem d values t Hvalues) in Ht as [key' Hkey'].
    pose proof (Hkeys _ _ Hkey') as Hname'. cbn in Hname.
    rewrite Hname in Hname'. subst key'.
    assert (t = tool) as -> by congruence.
    rewrite Hsplit, <- Hname. apply dict_by_name_last.
    rewrite Hname. exact Hpost.
  - apply dict_by_name_None. apply Forall_forall. intros t Ht Hname.
    apply (is_values_elem d values t Hvalues) in Ht as [key' Hkey'].
    rewrite (Hkeys _ _ Hkey') in Hname. congruence.
Qed.

(** X7: whatever a lookup in the registry built at line 16 returns is a tool
    of the list the registry was built from, it bears the name it was looked
    up under, and no tool after it in the list bears that name. *)
Theorem registry_lookup_sound (tools : list Tool) (key : string) (tool : Tool) :
  dict_by_name tools !! key = Some tool ->
  In tool tools
  /\ name (metadata tool) = key
  /\ exists pre post,
       tools = pre ++ tool :: post
       /\ Forall (fun t => name (metadata t) <> key) post.
Proof.
  intros Hlook.
  apply dict_by_name_lookup in Hlook as (pre & post & -> & Hname & Hpost).
  split; [apply in_elt|]. split; [exact Hname|]. eauto.
Qed.

(** Under pairwise distinct names each tool is found under its own. *)
Lemma distinct_names_lookup (tools : list Tool) (tool : Tool) :
  NoDup (map (fun t : Tool => name (metadata t)) tools) ->
  In tool tools ->
  dict_by_name tools !! name (metadata tool) = Some tool.
Proof.
  intros Hnodup Hin. apply in_split in Hin as (pre & post & ->).
  apply dict_by_name_last. rewrite map_app in Hnodup. cbn [map] in Hnodup.
  apply NoDup_app in Hnodup as (_ & _ & Hpost).
  apply NoDup_cons in Hpost as [Hnotin _].
  apply Forall_forall. intros t Ht Heq. apply Hnotin.
  rewrite <- Heq. apply list_elem_of_In, (in_map name_of), list_elem_of_In, Ht.
Qed.

(** X8: when the tools bear pairwise distinct names the registry loses
    none of them: each tool is found under its own name and the registry has
    as many entries as the list has tools. *)
Theorem distinct_names_all_registered (tools : list Tool) :
  NoDup (map (fun t : Tool => name (metadata t)) tools) ->
  (forall tool, In tool tools ->
     dict_by_name tools !! name (metadata tool) = Some tool)
  /\ size (dict_by_name tools) = length tools.
Proof.
  intros Hnodup. split.
  - intros tool. apply distinct_names_lookup, Hnodup.
  - induction tools as [|t tools IH] using rev_ind; [reflexivity|].
    rewrite map_app in Hnodup. cbn [map] in Hnodup.
    apply NoDup_app in Hnodup as (Hinit & Hdisjoint & _).
    rewrite dict_by_name_snoc, length_app, map_size_insert_None.
    + rewrite (IH Hinit). cbn. rewrite Nat.add_comm. reflexivity.
    + apply dict_by_name_None, Forall_forall. intros t' Ht' Heq.
      apply (Hdisjoint (name_of t')).
      * apply list_elem_of_In, (in_map name_of), list_elem_of_In, Ht'.
      * cbn. rewrite Heq. left.
Qed.

(** X9: when the tools bear pairwise distinct names their order in the list
    does not matter: any rearrangement of the list builds the same
    registry. *)
Theorem registry_order_irrelevant (tools tools' : list Tool) :
  NoDup (map (fun t : Tool => name (metadata t)) tools) ->
  tools ≡ₚ tools' ->
  dict_by_name tools = dict_by_name tools'.
Proof.
  intros Hnodup Hperm.
  assert (Hnodup' : NoDup (map name_of tools')).
  { rewrite <- Hperm. exact Hnodup. }
  apply map_eq. intros key.
  destruct (decide (Exists (fun t => name_of t = key) tools)) as [Hex|Hno].
  - apply Exists_exists in Hex as (t & Ht & <-).
    assert (Ht' : t ∈ tools') by (rewrite <- Hperm; exact Ht).
    apply list_elem_of_In in Ht, Ht'.
    rewrite (distinct_names_lookup tools t Hnodup Ht).
    rewrite (distinct_names_lookup tools' t Hnodup' Ht').
    reflexivity.
  - apply not_Exists_Forall in Hno; [|intros t; apply _].
    assert (Hno' : Forall (fun t => name_of t <> key) tools').
    { rewrite <- Hperm. exact Hno. }
    apply dict_by_name_None in Hno, Hno'. congruence.
Qed.

(** X10: the handler chained into the resumed stream (line 58) is built
    without error from the current handler's registry values and holds the
    same client and the same registry, in whatever order the values come;
    it starts with no run recorded. *)
Theorem chained_handler_keeps_registry {Client : Type}
    (self : EventHandler Client Any) (tools values : list Tool) :
  tools_by_name self = dict_by_name tools ->
  is_values (tools_by_name self) values ->
  chained_handler self values
  = Return (mkEventHandler (client self) (tools_by_name self) None).
Proof.
  intros Hreg Hvalues. unfold chained_handler, __init__.
  rewrite (dict_by_name_values (tools_by_name self) values);
    [reflexivity| |exact Hvalues].
  rewrite Hreg. apply dict_by_name_keyed.
Qed.

End Registry.

(** * Further properties of the handler *)

Section Handling.

Context {Client Any : Type}.
Variable str : Any -> string.
Variable json_loads : string -> loads_result.
Variable remote : SubmitCall -> result unit.

Local Abbreviation Tool := (FunctionTool Any).
Local Abbreviation Handler := (EventHandler Client Any).
Local Abbreviation process := (process_tool_call str json_loads).
Local Abbreviation loop := (for_tool_calls str json_loads).
Local Abbreviation handle := (handle_requires_action str json_loads remote).
Local Abbreviation ok := (processable (Client := Client) (Any := Any) json_loads).

(** The invocation a processable call leaves in the log. *)
Local Abbreviation invocation_of self :=
  (fun (c : ToolCall) (e : Effect) =>
     exists (tool : Tool) kwargs,
       tools_by_name self !! fn_name (tc_function c) = Some tool
       /\ e = Invoked (name (metadata tool)) kwargs).

Lemma invocations_length (self : Handler) (calls : list ToolCall)
    (evs : list Effect) :
  Forall2 (invocation_of self) calls evs ->
  length evs = length calls /\ resume_calls evs = 0%nat.
Proof.
  induction 1 as [|c e calls evs (tool & kwargs & _ & ->) _ [IHlen IHn]].
  - auto.
  - cbn [length]. rewrite IHlen. split; [reflexivity|].
    change (Invoked (name (metadata tool)) kwargs :: evs)
      with ([Invoked (name (metadata tool)) kwargs] ++ evs).
    rewrite resume_calls_app, IHn. reflexivity.
Qed.

Lemma invocations_names (self : Handler) (calls : list ToolCall)
    (evs : list Effect) :
  keyed_by_name (tools_by_name self) ->
  Forall2 (invocation_of self) calls evs ->
  invoked_tools evs = map (fun c => fn_name (tc_function c)) calls.
Proof.
  intros Hkeys.
  induction 1 as [|c e calls evs (tool & kwargs & Htool & ->) _ IH].
  - reflexivity.
  - cbn. rewrite (Hkeys _ _ Htool). f_equal. exact IH.
Qed.

(** On processable calls the loop logs one invocation per call, in order. *)
Lemma for_tool_calls_invocations (self : Handler) (calls : list ToolCall)
    (acc : list ToolOutputParam) (log : list Effect) :
  forallb (ok self) calls = true ->
  exists outs evs,
    loop self calls acc log = (Return outs, log ++ evs)
    /\ Forall2 (invocation_of self) calls evs.
Proof.
  revert acc log. induction calls as [|c calls IH]; intros acc log Hall.
  - exists acc, []. rewrite app_nil_r. split; [reflexivity|constructor].
  - cbn [forallb] in Hall. apply andb_prop in Hall as [Hc Hrest].
    destruct (process_processable str json_loads self c log Hc)
      as (tool & kwargs & Htool & _ & Hrun).
    destruct (IH (acc ++ [mkToolOutputParam (tc_id c)
                            (outcome_str (invoke str tool kwargs))])
                 (log ++ [Invoked (name (metadata tool)) kwargs]) Hrest)
      as (outs & evs & Hloop & Hevs).
    exists outs, (Invoked (name (metadata tool)) kwargs :: evs).
    split.
    + cbn [for_tool_calls]. unfold bind. rewrite Hrun, Hloop, <- app_assoc.
      reflexivity.
    + constructor; [eauto|exact Hevs].
Qed.

(** X1: the [run_id] handed to [handle_requires_action] is never read.  For
    a "thread.run.requires_action" event whose calls are processable the
    resume call goes to the thread and run the handler has recorded in
    [current_run], whatever ids the event's own run carries, and any other
    [run_id] argument gives the same result. *)
Theorem resume_addressed_to_current_run (self : Handler) (ev : StreamEvent)
    (cur : CurrentRun) (log : list Effect) :
  event ev = "thread.run.requires_action" ->
  current_run self = Some cur ->
  forallb (ok self) (pending_tool_calls (data ev)) = true ->
  (exists outs evs,
     on_event str json_loads remote self ev log
     = (remote (mkSubmitCall (cur_thread_id cur) (cur_id cur) outs),
        log ++ evs
        ++ [Submitted (mkSubmitCall (cur_thread_id cur) (cur_id cur) outs)])
     /\ resume_calls evs = 0%nat)
  /\ (forall run_id,
        handle self (data ev) run_id log
        = on_event str json_loads remote self ev log).
Proof.
  intros Hev Hcur Hall.
  assert (Hsame : forall run_id,
             handle self (data ev) run_id log
             = on_event str json_loads remote self ev log).
  { intros run_id. rewrite on_event_dispatch, Hev, String.eqb_refl.
    rewrite !handle_requires_action_cases. reflexivity. }
  split; [|exact Hsame].
  rewrite <- (Hsame "").
  destruct (handle_requires_action_processable str json_loads remote self
              (data ev) "" cur log Hcur Hall)
    as (outs & evs & _ & Hrun & Hn & _).
  eauto.
Qed.

(** X2: when the first call the loop body cannot get through is [c], the
    batch aborts with [c]'s exception and the log holds exactly what the
    calls before [c] left: one tool invocation for each of them, none for
    [c] or the calls after it, and no resume call. *)
Theorem abort_keeps_earlier_invocations (self : Handler) (data : Run)
    (run_id : string) (log : list Effect) (pre post : list ToolCall)
    (c : ToolCall) :
  pending_tool_calls data = pre ++ c :: post ->
  forallb (ok self) pre = true ->
  ok self c = false ->
  exists e evs,
    handle self data run_id log = (Raise e, log ++ evs)
    /\ process self c (log ++ evs) = (Raise e, log ++ evs)
    /\ snd (loop self pre [] log) = log ++ evs
    /\ length evs = length pre
    /\ resume_calls evs = 0%nat.
Proof.
  intros Hsplit Hpre Hbad.
  destruct (for_tool_calls_invocations self pre [] log Hpre)
    as (outs & evs & Hloop & Hevs).
  destruct (invocations_length self pre evs Hevs) as [Hlen Hn].
  destruct (process self c (log ++ evs)) as [[entry|e] log1] eqn:Hc.
  { apply process_returns in Hc as [Hok _]. congruence. }
  destruct (process_tool_call_log str json_loads self c (log ++ evs))
    as (evs1 & Hlog1 & _ & Hnil).
  rewrite Hc in Hlog1, Hnil. cbn in Hlog1, Hnil.
  rewrite (Hnil eq_refl), app_nil_r in Hlog1. subst log1.
  exists e, evs.
  rewrite handle_requires_action_cases, Hsplit, for_tool_calls_app.
  unfold bind at 1. rewrite Hloop. cbn [for_tool_calls]. unfold bind.
  rewrite Hc. auto.
Qed.

(** X3: a batch without pending calls is still answered: with a run
    recorded, one resume call carrying an empty output list is issued and
    no tool is invoked. *)
Theorem empty_batch_is_submitted (self : Handler) (data : Run)
    (run_id : string) (cur : CurrentRun) (log : list Effect) :
  pending_tool_calls data = [] ->
  current_run self = Some cur ->
  handle self data run_id log
  = (remote (mkSubmitCall (cur_thread_id cur) (cur_id cur) []),
     log ++ [Submitted (mkSubmitCall (cur_thread_id cur) (cur_id cur) [])]).
Proof.
  intros Hnone Hcur.
  rewrite handle_requires_action_cases, Hnone, Hcur. reflexivity.
Qed.

(** X4: nothing the remote side raises while the resumed stream is consumed
    is caught: the handler raises it, after every tool of the batch has been
    invoked and the one resume call has been issued. *)
Theorem remote_failure_propagates (self : Handler) (data : Run)
    (run_id : string) (cur : CurrentRun) (log : list Effect) (e : PyExc) :
  current_run self = Some cur ->
  forallb (ok self) (pending_tool_calls data) = true ->
  (forall call, remote call = Raise e) ->
  exists evs,
    handle self data run_id log = (Raise e, log ++ evs)
    /\ resume_calls evs = 1%nat
    /\ length evs = S (length (pending_tool_calls data)).
Proof.
  intros Hcur Hall Hdown.
  destruct (for_tool_calls_invocations self (pending_tool_calls data) [] log Hall)
    as (outs & evs & Hloop & Hevs).
  destruct (invocations_length self _ evs Hevs) as [Hlen Hn].
  exists (evs ++ [Submitted (mkSubmitCall (cur_thread_id cur) (cur_id cur) outs)]).
  rewrite handle_requires_action_cases, Hloop, Hcur. cbn zeta.
  rewrite Hdown, app_assoc. split; [reflexivity|].
  rewrite resume_calls_app, Hn, length_app, Hlen. cbn. split; [reflexivity|].
  rewrite Nat.add_comm. reflexivity.
Qed.

(** X5: with a run recorded, a resume call is issued exactly when every call
    of the batch is processable; otherwise none is. *)
Theorem submitted_iff_all_processable (self : Handler) (data : Run)
    (run_id : string) (cur : CurrentRun) (log : list Effect) :
  current_run self = Some cur ->
  exists evs,
    snd (handle self data run_id log) = log ++ evs
    /\ (resume_calls evs = 1%nat
        <-> forallb (ok self) (pending_tool_calls data) = true)
    /\ (resume_calls evs = 0%nat
        <-> forallb (ok self) (pending_tool_calls data) = false).
Proof.
  intros Hcur.
  destruct (forallb (ok self) (pending_tool_calls data)) eqn:Hall.
  - destruct (handle_requires_action_processable str json_loads remote self
                data run_id cur log Hcur Hall)
      as (outs & evs & _ & Hrun & Hn & _).
    eexists. rewrite Hrun. cbn [snd]. split; [reflexivity|].
    rewrite resume_calls_app, Hn, resume_calls_submitted.
    split; split; auto; discriminate.
  - rewrite handle_requires_action_cases.
    destruct (for_tool_calls_log str json_loads self (pending_tool_calls data)
                [] log) as (evs & Hlog & Hn).
    destruct (loop self (pending_tool_calls data) [] log)
      as [[outs|e] log1] eqn:Hloop.
    + apply for_tool_calls_returns in Hloop as (_ & _ & _ & Hok). congruence.
    + cbn [snd] in *. exists evs. rewrite Hn. split; [exact Hlog|].
      split; split; auto; discriminate.
Qed.

(** X6: a handler whose registry was built from a tool list dispatches by
    name: on a processable batch the tools invoked before the resume call
    are those named by the calls, one invocation per call, in the order of
    the batch. *)
Theorem requested_tools_invoked_in_order (self : Handler) (tools : list Tool)
    (data : Run) (run_id : string) (cur : CurrentRun) (log : list Effect) :
  tools_by_name self = dict_by_name tools ->
  current_run self = Some cur ->
  forallb (ok self) (pending_tool_calls data) = true ->
  exists outs evs,
    snd (handle self data run_id log)
    = log ++ evs
      ++ [Submitted (mkSubmitCall (cur_thread_id cur) (cur_id cur) outs)]
    /\ invoked_tools evs
       = map (fun c => fn_name (tc_function c)) (pending_tool_calls data)
    /\ length evs = length (pending_tool_calls data).
Proof.
  intros Hreg Hcur Hall.
  destruct (for_tool_calls_invocations self (pending_tool_calls data) [] log Hall)
    as (outs & evs & Hloop & Hevs).
  exists outs, evs.
  rewrite handle_requires_action_cases, Hloop, Hcur. cbn [snd].
  rewrite <- app_assoc. split; [reflexivity|]. split.
  - apply (invocations_names self); [|exact Hevs].
    rewrite Hreg. apply dict_by_name_keyed.
  - apply (invocations_length self _ evs Hevs).
Qed.

(** X12: an exception [json.loads] raises that is not a
    [json.JSONDecodeError] is not converted by line 41: when the calls
    before are processable the handler raises that very exception, the
    call's tool and the tools of later calls are not invoked, and no resume
    call is issued. *)
Theorem loads_exception_propagates (self : Handler) (data : Run)
    (run_id : string) (log : list Effect) (pre post : list ToolCall)
    (c : ToolCall) (tool : Tool) (e : PyExc) :
  pending_tool_calls data = pre ++ c :: post ->
  forallb (ok self) pre = true ->
  tc_type c = "function" ->
  tools_by_name self !! fn_name (tc_function c) = Some tool ->
  fn_arguments (tc_function c) <> "" ->
  json_loads (fn_arguments (tc_function c)) = LoadsRaised e ->
  exists evs,
    handle self data run_id log = (Raise e, log ++ evs)
    /\ length evs = length pre
    /\ resume_calls evs = 0%nat.
Proof.
  intros Hsplit Hpre Hty Htool Hne Hraise. apply String.eqb_neq in Hne.
  destruct (for_tool_calls_invocations self pre [] log Hpre)
    as (outs & evs & Hloop & Hevs).
  destruct (invocations_length self pre evs Hevs) as [Hlen Hn].
  exists evs.
  rewrite handle_requires_action_cases, Hsplit, for_tool_calls_app.
  unfold bind at 1. rewrite Hloop. cbn [for_tool_calls]. unfold bind.
  rewrite process_tool_call_cases, Hty, Htool, Hne, Hraise, String.eqb_refl.
  cbn [negb]. auto.
Qed.

End Handling.

(** * The retriever of the tests *)

Section Retriever.

Import SequentialRetriever.

Context {Document : Type}.

(** The outcome of a call made at position [k] of the script. *)
Local Abbreviation served responses :=
  (fun k : nat => Documents (default [] ((responses : list (list Document)) !! k))).

(** Inside the script a call returns the response at the index and moves
    the index on by one. *)
Lemma get_relevant_documents_next (responses : list (list Document)) (i : nat)
    (query : string) :
  (i < length responses)%nat ->
  _get_relevant_documents (mk responses (Z.of_nat i)) query
  = (served responses i, mk responses (Z.of_nat (S i))).
Proof.
  intros Hi. unfold _get_relevant_documents, subscript. cbn [sequential_responses response_index].
  destruct (Z.leb_spec (Z.of_nat (length responses)) (Z.of_nat i)) as [Hle|_]; [lia|].
  destruct (Z.leb_spec 0 (Z.of_nat i + 1 - 1)) as [_|Hneg]; [|lia].
  replace (Z.to_nat (Z.of_nat i + 1 - 1)) with i by lia.
  destruct (lookup_lt_is_Some_2 responses i Hi) as [docs Hdocs].
  rewrite Hdocs. cbn. do 2 f_equal. lia.
Qed.

(** Past the end of the script a call returns no documents and leaves the
    retriever as it is. *)
Lemma get_relevant_documents_exhausted (responses : list (list Document))
    (i : nat) (query : string) :
  (length responses <= i)%nat ->
  _get_relevant_documents (mk responses (Z.of_nat i)) query
  = (served responses i, mk responses (Z.of_nat i)).
Proof.
  intros Hi. unfold _get_relevant_documents. cbn [sequential_responses response_index].
  destruct (Z.leb_spec (Z.of_nat (length responses)) (Z.of_nat i)) as [_|Hlt]; [|lia].
  rewrite (lookup_ge_None_2 responses i Hi). reflexivity.
Qed.

Lemma served_past_end (responses : list (list Document)) (i j n : nat) :
  (length responses <= i)%nat -> (length responses <= j)%nat ->
  map (served responses) (seq i n) = map (served responses) (seq j n).
Proof.
  revert i j. induction n as [|n IH]; intros i j Hi Hj; [reflexivity|].
  cbn [seq map]. rewrite (lookup_ge_None_2 responses i Hi).
  rewrite (lookup_ge_None_2 responses j Hj). f_equal. apply IH; lia.
Qed.

(** X11: a retriever whose index is at position [i] of its script answers
    successive calls with the responses from position [i] on, one per
    call and in order, then with the empty list for every further call; it
    never raises, never looks at the query, and its index stops at the
    length of the script. *)
Theorem responses_served_in_order (responses : list (list Document)) (i : nat)
    (queries : list string) :
  ask (mk responses (Z.of_nat i)) queries
  = (map (fun k => Documents (default [] (responses !! k)))
       (seq i (length queries)),
     mk responses
       (Z.of_nat (Nat.max i (Nat.min (i + length queries) (length responses))))).
Proof.
  revert i. induction queries as [|query queries IH]; intros i.
  - cbn. do 2 f_equal. lia.
  - cbn [ask length seq map].
    destruct (le_lt_dec (length responses) i) as [Hend|Hin].
    + rewrite (get_relevant_documents_exhausted responses i query Hend), IH.
      rewrite (served_past_end responses i (S i) (length queries)) by lia.
      do 3 f_equal. lia.
    + rewrite (get_relevant_documents_next responses i query Hin), IH.
      do 3 f_equal. lia.
Qed.

End Retriever.

(** * The further properties on the concrete session *)

(** X1 at an event whose run is "run_2" of "thread_2" while the handler has
    recorded "run_1" of "thread_1": the outputs go to the recorded run. *)
Lemma resume_addressed_to_current_run_witness :
  event event_of_other_run = "thread.run.requires_action"
  /\ current_run handler = Some (mkCurrentRun "thread_1" "run_1")
  /\ forallb (processable Json.loads handler)
       (pending_tool_calls (data event_of_other_run)) = true
  /\ run_id_ (data event_of_other_run) = "run_2"
  /\ exists outs evs,
       on_event str Json.loads remote handler event_of_other_run []
       = (remote (mkSubmitCall "thread_1" "run_1" outs),
          [] ++ evs ++ [Submitted (mkSubmitCall "thread_1" "run_1" outs)])
       /\ resume_calls evs = 0%nat.
Proof.
  split; [reflexivity|]. split; [reflexivity|].
  split; [vm_compute; reflexivity|]. split; [reflexivity|].
  apply (resume_addressed_to_current_run str Json.loads remote handler
           event_of_other_run (mkCurrentRun "thread_1" "run_1") []);
    [reflexivity|reflexivity|vm_compute; reflexivity].
Defined.

(** X2 at a batch whose second call carries a malformed payload: the first
    call's tool has run, the third call's has not. *)
Lemma abort_keeps_earlier_invocations_witness :
  pending_tool_calls (run_with [call_temperature; call_malformed; call_explode])
  = [call_temperature] ++ call_malformed :: [call_explode]
  /\ forallb (processable Json.loads handler) [call_temperature] = true
  /\ processable Json.loads handler call_malformed = false
  /\ exists e evs,
       handle_requires_action str Json.loads remote handler
         (run_with [call_temperature; call_malformed; call_explode]) "run_1" []
       = (Raise e, [] ++ evs)
       /\ length evs = 1%nat
       /\ resume_calls evs = 0%nat.
Proof.
  split; [reflexivity|]. split; [vm_compute; reflexivity|].
  split; [vm_compute; reflexivity|].
  destruct (abort_keeps_earlier_invocations str Json.loads remote handler
              (run_with [call_temperature; call_malformed; call_explode])
              "run_1" [] [call_temperature] [call_explode] call_malformed)
    as (e & evs & Hrun & _ & _ & Hlen & Hn);
    [reflexivity|vm_compute; reflexivity|vm_compute; reflexivity|].
  exists e, evs. auto.
Defined.

(** X3 at a run without pending calls. *)
Lemma empty_batch_is_submitted_witness :
  pending_tool_calls (run_with []) = []
  /\ current_run handler = Some (mkCurrentRun "thread_1" "run_1")
  /\ handle_requires_action str Json.loads remote handler (run_with []) "run_1" []
     = (Return tt, [Submitted (mkSubmitCall "thread_1" "run_1" [])]).
Proof.
  split; [reflexivity|]. split; [reflexivity|].
  apply (empty_batch_is_submitted str Json.loads remote handler (run_with [])
           "run_1" (mkCurrentRun "thread_1" "run_1") []); reflexivity.
Defined.

(** X4 with a remote side that refuses every connection. *)
Lemma remote_failure_propagates_witness :
  current_run handler = Some (mkCurrentRun "thread_1" "run_1")
  /\ forallb (processable Json.loads handler)
       (pending_tool_calls (run_with [call_temperature])) = true
  /\ (forall call,
        remote_down call = Raise (RemoteError "APIConnectionError" "Connection error."))
  /\ exists evs,
       handle_requires_action str Json.loads remote_down handler
         (run_with [call_temperature]) "run_1" []
       = (Raise (RemoteError "APIConnectionError" "Connection error."), [] ++ evs)
       /\ resume_calls evs = 1%nat
       /\ length evs = 2%nat.
Proof.
  split; [reflexivity|]. split; [vm_compute; reflexivity|].
  split; [reflexivity|].
  apply (remote_failure_propagates str Json.loads remote_down handler
           (run_with [call_temperature]) "run_1"
           (mkCurrentRun "thread_1" "run_1") []);
    [reflexivity|vm_compute; reflexivity|reflexivity].
Defined.

(** X5 at a batch that is processable and at one that is not. *)
Lemma submitted_iff_all_processable_witness :
  current_run handler = Some (mkCurrentRun "thread_1" "run_1")
  /\ (exists evs,
        snd (handle_requires_action str Json.loads remote handler
               (run_with [call_temperature; call_explode]) "run_1" [])
        = [] ++ evs
        /\ resume_calls evs = 1%nat)
  /\ (exists evs,
        snd (handle_requires_action str Json.loads remote handler
               (run_with [call_temperature; call_unknown]) "run_1" [])
        = [] ++ evs
        /\ resume_calls evs = 0%nat).
Proof.
  split; [reflexivity|]. split.
  - destruct (submitted_iff_all_processable str Json.loads remote handler
                (run_with [call_temperature; call_explode]) "run_1"
                (mkCurrentRun "thread_1" "run_1") [] eq_refl)
      as (evs & Hlog & Hone & _).
    exists evs. split; [exact Hlog|]. apply Hone. vm_compute. reflexivity.
  - destruct (submitted_iff_all_processable str Json.loads remote handler
                (run_with [call_temperature; call_unknown]) "run_1"
                (mkCurrentRun "thread_1" "run_1") [] eq_refl)
      as (evs & Hlog & _ & Hnone).
    exists evs. split; [exact Hlog|]. apply Hnone. vm_compute. reflexivity.
Defined.

(** X6 at a batch that calls "explode" first and then
    "fetch_current_temperature". *)
Lemma requested_tools_invoked_in_order_witness :
  tools_by_name handler = dict_by_name tools
  /\ current_run handler = Some (mkCurrentRun "thread_1" "run_1")
  /\ forallb (processable Json.loads handler)
       (pending_tool_calls (run_with [call_explode; call_temperature])) = true
  /\ exists outs evs,
       snd (handle_requires_action str Json.loads remote handler
              (run_with [call_explode; call_temperature]) "run_1" [])
       = [] ++ evs ++ [Submitted (mkSubmitCall "thread_1" "run_1" outs)]
       /\ invoked_tools evs = ["explode"; "fetch_current_temperature"]
       /\ length evs = 2%nat.
Proof.
  split; [reflexivity|]. split; [reflexivity|].
  split; [vm_compute; reflexivity|].
  apply (requested_tools_invoked_in_order str Json.loads remote handler tools
           (run_with [call_explode; call_temperature]) "run_1"
           (mkCurrentRun "thread_1" "run_1") []);
    [reflexivity|reflexivity|vm_compute; reflexivity].
Defined.

(** X7 at the lookup of "fetch_current_temperature" in a list that holds
    two tools of that name. *)
Lemma registry_lookup_sound_witness :
  dict_by_name [fetch_current_temperature; explode; fetch_current_temperature_v2]
  !! "fetch_current_temperature" = Some fetch_current_temperature_v2
  /\ In fetch_current_temperature_v2
       [fetch_current_temperature; explode; fetch_current_temperature_v2]
  /\ name (metadata fetch_current_temperature_v2) = "fetch_current_temperature".
Proof.
  assert (Hlook : dict_by_name
                    [fetch_current_temperature; explode; fetch_current_temperature_v2]
                  !! "fetch_current_temperature" = Some fetch_current_temperature_v2)
    by (vm_compute; reflexivity).
  split; [exact Hlook|].
  destruct (registry_lookup_sound _ _ _ Hlook) as (Hin & Hname & _).
  split; [exact Hin|exact Hname].
Defined.

(** X8 at the three tools of the session. *)
Lemma distinct_names_all_registered_witness :
  NoDup (map (fun t : FunctionTool string => name (metadata t)) tools)
  /\ dict_by_name tools !! "explode" = Some explode
  /\ size (dict_by_name tools) = 3%nat.
Proof.
  assert (Hnodup : NoDup (map (fun t : FunctionTool string => name (metadata t)) tools)).
  { apply (bool_decide_unpack _). vm_compute. exact I. }
  split; [exact Hnodup|].
  destruct (distinct_names_all_registered tools Hnodup) as [Hlook Hsize].
  split; [|exact Hsize].
  apply (Hlook explode). right. right. left. reflexivity.
Defined.

(** X9 at the session's tools listed in another order. *)
Lemma registry_order_irrelevant_witness :
  NoDup (map (fun t : FunctionTool string => name (metadata t)) tools)
  /\ tools ≡ₚ [explode; fetch_current_temperature; fetch_forecast_temperature]
  /\ dict_by_name tools
     = dict_by_name [explode; fetch_current_temperature; fetch_forecast_temperature].
Proof.
  assert (Hnodup : NoDup (map (fun t : FunctionTool string => name (metadata t)) tools)).
  { apply (bool_decide_unpack _). vm_compute. exact I. }
  assert (Hperm : tools ≡ₚ [explode; fetch_current_temperature;
                            fetch_forecast_temperature]).
  { symmetry.
    apply (Permutation_cons_append
             [fetch_current_temperature; fetch_forecast_temperature] explode). }
  split; [exact Hnodup|]. split; [exact Hperm|].
  apply (registry_order_irrelevant tools _ Hnodup Hperm).
Defined.

(** X10 at the session's handler, its values taken in insertion order. *)
Lemma chained_handler_keeps_registry_witness :
  tools_by_name handler = dict_by_name tools
  /\ is_values (tools_by_name handler) tools
  /\ chained_handler handler tools
     = Return (mkEventHandler tt (tools_by_name handler) None).
Proof.
  assert (Hvalues : is_values (tools_by_name handler) tools).
  { unfold is_values.
    transitivity [explode; fetch_current_temperature; fetch_forecast_temperature].
    - symmetry.
      apply (Permutation_cons_append
               [fetch_current_temperature; fetch_forecast_temperature] explode).
    - vm_compute. reflexivity. }
  split; [reflexivity|]. split; [exact Hvalues|].
  apply (chained_handler_keeps_registry handler tools tools eq_refl Hvalues).
Defined.

(** X11 at the tour guide's retriever, asked three times: the two scripted
    responses, then nothing. *)
Lemma responses_served_in_order_witness :
  SequentialRetriever.ask SequentialRetriever.tour_guide
    ["I'm at Central Park W & 79st"; "11 W 53rd St"; "And now?"]
  = ([SequentialRetriever.Documents
        ["Central Park"; "American Museum of Natural History"];
      SequentialRetriever.Documents ["Museum of Modern Art"];
      SequentialRetriever.Documents []],
     SequentialRetriever.mk
       (SequentialRetriever.sequential_responses SequentialRetriever.tour_guide) 2).
Proof.
  exact (responses_served_in_order
           (SequentialRetriever.sequential_responses SequentialRetriever.tour_guide)
           0 ["I'm at Central Park W & 79st"; "11 W 53rd St"; "And now?"]).
Defined.

(** X12 at a batch whose second call carries an integer literal of 4301
    digits. *)
Lemma loads_exception_propagates_witness :
  pending_tool_calls (run_with [call_temperature; call_long_integer; call_explode])
  = [call_temperature] ++ call_long_integer :: [call_explode]
  /\ forallb (processable Json.loads handler) [call_temperature] = true
  /\ tc_type call_long_integer = "function"
  /\ tools_by_name handler !! fn_name (tc_function call_long_integer)
     = Some fetch_current_temperature
  /\ fn_arguments (tc_function call_long_integer) <> ""
  /\ Json.loads (fn_arguments (tc_function call_long_integer))
     = LoadsRaised (Json.digits_error 4301)
  /\ exists evs,
       handle_requires_action str Json.loads remote handler
         (run_with [call_temperature; call_long_integer; call_explode]) "run_1" []
       = (Raise (Json.digits_error 4301), [] ++ evs)
       /\ length evs = 1%nat
       /\ resume_calls evs = 0%nat.
Proof.
  assert (Hne : fn_arguments (tc_function call_long_integer) <> "")
    by (vm_compute; discriminate).
  assert (Hloads : Json.loads (fn_arguments (tc_function call_long_integer))
                   = LoadsRaised (Json.digits_error 4301))
    by (vm_compute; reflexivity).
  split; [reflexivity|]. split; [vm_compute; reflexivity|].
  split; [reflexivity|]. split; [vm_compute; reflexivity|].
  split; [exact Hne|]. split; [exact Hloads|].
  apply (loads_exception_propagates str Json.loads remote handler
           (run_with [call_temperature; call_long_integer; call_explode])
           "run_1" [] [call_temperature] [call_explode] call_long_integer
           fetch_current_temperature (Json.digits_error 4301));
    [reflexivity|vm_compute; reflexivity|reflexivity|vm_compute; reflexivity
    |exact Hne|exact Hloads].
Defined.
